(** * The signed message envelope of the monitoring service

    A shallow embedding of [monitoring_service/messages/message.py]: the
    class [Message], its [type] property, the outbound path
    [serialize_full] / [assemble_message] / [sign_data] and the inbound path
    [Message.deserialize].

    Python values are the JSON-shaped universe the envelope code moves
    around; exceptions are an explicit error type threaded through a result
    monad; the clock read by [time.time()] is an explicit argument; the
    [json] library is a pair of functions [dumps] / [loads] taken as
    parameters of the development together with the one law the envelope
    relies on. *)

From Stdlib Require Import String Ascii ZArith List Bool Lia.
From Stdlib Require Import Decimal DecimalString DecimalZ.
From stdpp Require Import base option list strings gmap.

Open Scope string_scope.

(** ** Python values *)

(** The values that occur in the envelope protocol: [None], booleans,
    integers, floats, strings, lists and dictionaries with string keys.
    A dictionary keeps its insertion order, as Python's does, and that is
    the order [json.dumps] writes it in.  The type of floats is left open:
    the envelope code stores and forwards the timestamp and never computes
    with it. *)
#[warnings="-register-all"]
Inductive value (float : Type) : Type :=
  | VNone
  | VBool (b : bool)
  | VInt (n : Z)
  | VFloat (f : float)
  | VStr (s : string)
  | VList (l : list (value float))
  | VDict (kvs : list (string * value float)).

Arguments VNone {float}.
Arguments VBool {float} b.
Arguments VInt {float} n.
Arguments VFloat {float} f.
Arguments VStr {float} s.
Arguments VList {float} l.
Arguments VDict {float} kvs.

(** ** Exceptions and the result monad *)

Inductive error : Type :=
  | AssertionError
  | NotImplementedError
  | KeyError (key : string)
  | TypeError
  | JSONDecodeError
  | SchemaError (what : string)   (* jsonschema's validation failure *)
  | UnknownTypeError (tag : string)
  | DecoderError (msg : string).  (* anything a variant decoder raises *)

Inductive result (A : Type) : Type :=
  | Ok (a : A)
  | Err (e : error).

Arguments Ok {A} a.
Arguments Err {A} e.

#[export] Instance result_ret : MRet result := fun A a => Ok a.
#[export] Instance result_bind : MBind result := fun A B f m =>
  match m with
  | Ok a => f a
  | Err e => Err e
  end.

Definition is_ok {A} (r : result A) : bool :=
  match r with Ok _ => true | Err _ => false end.

(** [assert c] *)
Definition assert (c : bool) : result unit :=
  if c then Ok tt else Err AssertionError.

(** ** Dictionary access *)

Section Dict.
Context {float : Type}.
Abbreviation val := (value float).

(** [isinstance(v, str)] *)
Definition is_str (v : val) : bool :=
  match v with VStr _ => true | _ => false end.

Fixpoint dict_get (kvs : list (string * val)) (k : string) : option val :=
  match kvs with
  | [] => None
  | (k', v) :: rest => if String.eqb k' k then Some v else dict_get rest k
  end.

(** [d[k] = v] on the entries: an existing key keeps its position, a new
    key goes last. *)
Fixpoint dict_set (kvs : list (string * val)) (k : string) (v : val)
  : list (string * val) :=
  match kvs with
  | [] => [(k, v)]
  | (k', v') :: rest =>
      if String.eqb k' k then (k', v) :: rest
      else (k', v') :: dict_set rest k v
  end.

(** [d[k]]: [KeyError] on a missing key, [TypeError] when [d] cannot be
    indexed by a string. *)
Definition getitem (d : val) (k : string) : result val :=
  match d with
  | VDict kvs =>
      match dict_get kvs k with
      | Some v => Ok v
      | None => Err (KeyError k)
      end
  | _ => Err TypeError
  end.

(** [d[k] = v], returning the updated dictionary. *)
Definition setitem (d : val) (k : string) (v : val) : result val :=
  match d with
  | VDict kvs => Ok (VDict (dict_set kvs k v))
  | _ => Err TypeError
  end.

End Dict.

(** ** Message objects *)

(** An instance of [Message] or of one of its subclasses: the attributes
    the envelope code reads and writes, and the two methods it calls through
    [self], as the instance's class resolves them.  [self_serialize_data] is
    what [self.serialize_data()] returns or raises; [self_sign_data] is
    [self.sign_data].  [header] is absent until [Message.deserialize]
    attaches it. *)
Record Message {float : Type} : Type := mkMessage {
  _type : value float;
  header : option (value float);
  self_serialize_data : result (value float);
  self_sign_data : string -> string -> string;
}.

Arguments Message float : clear implicits.

(** [cls.header = h] *)
Definition set_header {float} (cls : Message float) (h : value float)
  : Message float :=
  {| _type := _type cls;
     header := Some h;
     self_serialize_data := self_serialize_data cls;
     self_sign_data := self_sign_data cls |}.

(** ** The envelope schema and its validator *)

Module jsonschema.

(** The part of JSON Schema the envelope schema is written in: the type of
    the instance, the keys an object must have, the type of each listed
    property, and whether keys outside the listed ones are allowed. *)
Inductive json_type : Type :=
  | Tnull | Tboolean | Tnumber | Tstring | Tarray | Tobject.

Record schema : Type := mkSchema {
  sch_type : json_type;
  sch_required : list string;
  sch_properties : list (string * json_type);
  sch_additionalProperties : bool;
}.

Definition has_type {float} (v : value float) (t : json_type) : bool :=
  match v, t with
  | VNone, Tnull => true
  | VBool _, Tboolean => true
  | VInt _, Tnumber => true
  | VFloat _, Tnumber => true
  | VStr _, Tstring => true
  | VList _, Tarray => true
  | VDict _, Tobject => true
  | _, _ => false
  end.

(** The first required key that the object lacks. *)
Fixpoint missing_key {float} (kvs : list (string * value float))
    (required : list string) : option string :=
  match required with
  | [] => None
  | k :: rest =>
      match dict_get kvs k with
      | Some _ => missing_key kvs rest
      | None => Some k
      end
  end.

(** The first listed property that is present with the wrong type. *)
Fixpoint mistyped_key {float} (kvs : list (string * value float))
    (properties : list (string * json_type)) : option string :=
  match properties with
  | [] => None
  | (k, t) :: rest =>
      match dict_get kvs k with
      | Some v => if has_type v t then mistyped_key kvs rest else Some k
      | None => mistyped_key kvs rest
      end
  end.

(** The first key of the object that is not a listed property. *)
Fixpoint extra_key {float} (kvs : list (string * value float))
    (properties : list (string * json_type)) : option string :=
  match kvs with
  | [] => None
  | (k, _) :: rest =>
      if existsb (fun p => String.eqb (fst p) k) properties
      then extra_key rest properties
      else Some k
  end.

(** [jsonschema.validate(instance, schema)]: returns nothing, or raises on
    the first violation, naming the key. *)
Definition validate {float} (instance : value float) (s : schema)
  : result unit :=
  if negb (has_type instance (sch_type s)) then Err (SchemaError "type")
  else
    match instance with
    | VDict kvs =>
        match missing_key kvs (sch_required s) with
        | Some k => Err (SchemaError k)
        | None =>
            match mistyped_key kvs (sch_properties s) with
            | Some k => Err (SchemaError k)
            | None =>
                if sch_additionalProperties s then Ok tt
                else
                  match extra_key kvs (sch_properties s) with
                  | Some k => Err (SchemaError k)
                  | None => Ok tt
                  end
            end
        end
    | _ => Ok tt
    end.

End jsonschema.

Module json_schema.
Import jsonschema.

(** Modelled from the spec: [monitoring_service/json_schema.py] is not
    among the sources.  The spec's Schema Validator checks that the
    top-level object has exactly the outer keys [signature] and [data],
    both strings. *)
Definition ENVELOPE_SCHEMA : schema :=
  {| sch_type := Tobject;
     sch_required := ["signature"; "data"];
     sch_properties := [("signature", Tstring); ("data", Tstring)];
     sch_additionalProperties := false |}.

End json_schema.

(** ** The type registry and the deserializer *)

Module deserializer.

(** Modelled from the spec: [monitoring_service/messages/deserializer.py]
    is not among the sources.  The spec's Type Registry maps a type tag to
    the decoder of the variant registered under it, at most one per tag;
    [deserialize] resolves [header.type] in it, fails with
    [UnknownTypeError] on a miss and otherwise hands [body] to the decoder,
    which rebuilds the concrete Message. *)
Definition deserialize {float}
    (registry : gmap string (value float -> result (Message float)))
    (json_data : value float) : result (Message float) :=
  hdr ← getitem json_data "header";
  ty ← getitem hdr "type";
  match ty with
  | VStr tag =>
      match registry !! tag with
      | Some decoder =>
          body ← getitem json_data "body";
          decoder body
      | None => Err (UnknownTypeError tag)
      end
  | _ => Err TypeError
  end.

End deserializer.

(** ** class Message *)

Section MessageClass.
Context {float : Type}.
Abbreviation val := (value float).
Abbreviation Msg := (Message float).

(** [json.dumps] and [json.loads]. *)
Variable json_dumps : val -> string.
Variable json_loads : string -> result val.

(** [monitoring_service.utils.privkey_to_addr]: the address of a private
    key. *)
Variable privkey_to_addr : string -> string.

(** [deserialize], as [message.py] imports it from
    [monitoring_service.messages.deserializer]. *)
Variable deserializer_deserialize : val -> result Msg.

(** [Message.serialize_data]: the base class leaves it to the variants. *)
Definition serialize_data : result val := Err NotImplementedError.

(** [Message.deserialize_from_json], a class method, likewise. *)
Definition deserialize_from_json (data : val) : result Msg :=
  Err NotImplementedError.

(** [Message.sign_data] *)
Definition sign_data (private_key : string) (data : string) : string :=
  "0x1111111111111111111111111111111".

(** [Message.__init__]: a fresh instance of the base class. *)
Definition __init__ : Msg :=
  {| _type := VNone;
     header := None;
     self_serialize_data := serialize_data;
     self_sign_data := sign_data |}.

(** The [type] property. *)
Definition type (self : Msg) : val := _type self.

(** The setter of the [type] property: [self.type = value]. *)
Definition type_setter (self : Msg) (value : val) : result Msg :=
  _ ← assert (is_str (_type self));
  Ok {| _type := value;
        header := header self;
        self_serialize_data := self_serialize_data self;
        self_sign_data := self_sign_data self |}.

(** [Message.assemble_message]; [now] is what [time.time()] returns. *)
Definition assemble_message (now : float) (self : Msg) : result val :=
  _ ← assert (is_str (type self));
  body ← self_serialize_data self;
  Ok (VDict [("header", VDict [("type", type self);
                               ("timestamp", VFloat now);
                               ("sender", VNone)]);
             ("body", body)]).

(** The envelope [serialize_full] writes out: [{'signature': ..., 'data':
    ...}] before the final [json.dumps]. *)
Definition envelope (signature : string) (data : string) : val :=
  VDict [("signature", VStr signature); ("data", VStr data)].

(** [Message.serialize_full].  The assignment
    [msg_data['header']['sender'] = ...] updates the header dictionary in
    place, and with it [msg_data], which holds it: the update is written
    back.  [self.sign_data] is resolved on the instance. *)
Definition serialize_full (now : float) (self : Msg) (private_key : string)
  : result string :=
  msg_data ← assemble_message now self;
  hdr ← getitem msg_data "header";
  hdr ← setitem hdr "sender" (VStr (privkey_to_addr private_key));
  msg_data ← setitem msg_data "header" hdr;
  let msg_data := json_dumps msg_data in
  Ok (json_dumps (envelope (self_sign_data self private_key msg_data) msg_data)).

(** [Message.deserialize], a static method. *)
Definition deserialize (data : val) : result Msg :=
  json_message ← (match data with
                  | VStr s => json_loads s
                  | _ => Ok data
                  end);
  _ ← jsonschema.validate json_message json_schema.ENVELOPE_SCHEMA;
  inner ← getitem json_message "data";
  json_data ← (match inner with
               | VStr s => json_loads s
               | _ => Err TypeError
               end);
  cls ← deserializer_deserialize json_data;
  hdr ← getitem json_data "header";
  Ok (set_header cls hdr).

End MessageClass.

(** ** Well-formed values *)

(** A Python dictionary holds a key once.  [wf v] says so of every
    dictionary inside [v]; these are the values Python can build, and the
    ones [json.loads] returns. *)
Fixpoint nodup_keys {A} (kvs : list (string * A)) : bool :=
  match kvs with
  | [] => true
  | (k, _) :: rest =>
      negb (existsb (fun p => String.eqb (fst p) k) rest) && nodup_keys rest
  end.

Fixpoint wf {float} (v : value float) : bool :=
  match v with
  | VList l => forallb wf l
  | VDict kvs =>
      nodup_keys kvs && forallb (fun kv => match kv with (_, x) => wf x end) kvs
  | _ => true
  end.

(** ** A reference JSON codec *)

(** A printer in the format of Python's [json.dumps] with its default
    arguments (separators [", "] and [": "], ASCII-only output) and a parser
    for that text, over values whose floats are integral and whose strings
    hold code points below 256.  The parser also reads white space between
    tokens and every escape of a JSON string; it reads no exponent and no
    fraction other than [.0].  It is the instance at which the law assumed
    of [json.dumps] / [json.loads] is shown to hold. *)
Module RefJson.

Abbreviation jval := (value Z).

Definition dquote : ascii := "034"%char.
Definition backslash : ascii := "\"%char.

Definition is_ws (c : ascii) : bool :=
  (c =? " ")%char || (c =? "009")%char || (c =? "010")%char || (c =? "013")%char.

Fixpoint skip_ws (s : string) : string :=
  match s with
  | String c s' => if is_ws c then skip_ws s' else s
  | EmptyString => s
  end.

(** *** Numbers *)

Definition digit_of_char (c : ascii) : option (uint -> uint) :=
  match c with
  | "0" => Some D0 | "1" => Some D1 | "2" => Some D2 | "3" => Some D3
  | "4" => Some D4 | "5" => Some D5 | "6" => Some D6 | "7" => Some D7
  | "8" => Some D8 | "9" => Some D9 | _ => None
  end%char.

(** The longest prefix of decimal digits, and what follows it. *)
Fixpoint read_uint (s : string) : uint * string :=
  match s with
  | String c s' =>
      match digit_of_char c with
      | Some d => let '(u, rest) := read_uint s' in (d u, rest)
      | None => (Nil, s)
      end
  | EmptyString => (Nil, s)
  end.

Definition print_int (z : Z) : string := NilEmpty.string_of_int (Z.to_int z).

Definition print_float (z : Z) : string := print_int z ++ ".0".

Definition parse_number (s : string) : option (jval * string) :=
  let '(negative, s1) :=
    match s with
    | String c s' => if (c =? "-")%char then (true, s') else (false, s)
    | EmptyString => (false, s)
    end in
  let '(u, s2) := read_uint s1 in
  match u with
  | Nil => None
  | _ =>
      let z := Z.of_int (if negative : bool then Neg u else Pos u) in
      match s2 with
      | String c s3 =>
          if (c =? ".")%char then
            let '(frac, s4) := read_uint s3 in
            match frac with
            | D0 Nil => Some (VFloat z, s4)
            | _ => None
            end
          else Some (VInt z, s2)
      | EmptyString => Some (VInt z, s2)
      end
  end.

(** *** Strings *)

Definition hex_char (n : N) : ascii :=
  match n with
  | 0 => "0" | 1 => "1" | 2 => "2" | 3 => "3" | 4 => "4" | 5 => "5"
  | 6 => "6" | 7 => "7" | 8 => "8" | 9 => "9" | 10 => "a" | 11 => "b"
  | 12 => "c" | 13 => "d" | 14 => "e" | _ => "f"
  end%N%char.

(** The value of a hexadecimal digit, in either case. *)
Definition hex_value (c : ascii) : option N :=
  let n := N_of_ascii c in
  if ((48 <=? n) && (n <=? 57))%N then Some (n - 48)%N
  else if ((97 <=? n) && (n <=? 102))%N then Some (n - 87)%N
  else if ((65 <=? n) && (n <=? 70))%N then Some (n - 55)%N
  else None.

Definition hex4 (h1 h2 h3 h4 : ascii) : option N :=
  match hex_value h1, hex_value h2, hex_value h3, hex_value h4 with
  | Some a, Some b, Some c, Some d => Some (((a * 16 + b) * 16 + c) * 16 + d)%N
  | _, _, _, _ => None
  end.

(** What one character of a string becomes between the quotes. *)
Definition escape_char (c : ascii) : string :=
  if (c =? dquote)%char then String backslash (String dquote "")
  else if (c =? backslash)%char then "\\"
  else if (c =? "010")%char then "\n"
  else if (c =? "013")%char then "\r"
  else if (c =? "009")%char then "\t"
  else if (c =? "008")%char then "\b"
  else if (c =? "012")%char then "\f"
  else
    let n := N_of_ascii c in
    if ((n <? 32) || (126 <? n))%N
    then "\u00" ++ String (hex_char (n / 16)) (String (hex_char (n mod 16)) "")
    else String c "".

Fixpoint escape (s : string) : string :=
  match s with
  | EmptyString => ""
  | String c s' => escape_char c ++ escape s'
  end.

Definition quote (s : string) : string :=
  String dquote (escape s ++ String dquote "").

Definition unescape (e : ascii) : option ascii :=
  if (e =? dquote)%char then Some dquote
  else if (e =? backslash)%char then Some backslash
  else if (e =? "/")%char then Some "/"%char
  else if (e =? "n")%char then Some "010"%char
  else if (e =? "r")%char then Some "013"%char
  else if (e =? "t")%char then Some "009"%char
  else if (e =? "b")%char then Some "008"%char
  else if (e =? "f")%char then Some "012"%char
  else None.

(** The text after an opening quote: the string it spells, and what
    follows the closing quote. *)
Fixpoint parse_string (s : string) : option (string * string) :=
  match s with
  | EmptyString => None
  | String c s1 =>
      if (c =? dquote)%char then Some (EmptyString, s1)
      else if (c =? backslash)%char then
        match s1 with
        | String e s2 =>
            if (e =? "u")%char then
              match s2 with
              | String h1 (String h2 (String h3 (String h4 s3))) =>
                  match hex4 h1 h2 h3 h4 with
                  | Some n =>
                      if (n <? 256)%N then
                        match parse_string s3 with
                        | Some (str, rest) => Some (String (ascii_of_N n) str, rest)
                        | None => None
                        end
                      else None
                  | None => None
                  end
              | _ => None
              end
            else
              match unescape e with
              | Some ch =>
                  match parse_string s2 with
                  | Some (str, rest) => Some (String ch str, rest)
                  | None => None
                  end
              | None => None
              end
        | EmptyString => None
        end
      else if (N_of_ascii c <? 32)%N then None
      else
        match parse_string s1 with
        | Some (str, rest) => Some (String c str, rest)
        | None => None
        end
  end.

(** *** Values *)

Fixpoint join (items : list string) : string :=
  match items with
  | [] => ""
  | [x] => x
  | x :: rest => x ++ ", " ++ join rest
  end.

Fixpoint dumps (v : jval) : string :=
  match v with
  | VNone => "null"
  | VBool true => "true"
  | VBool false => "false"
  | VInt n => print_int n
  | VFloat f => print_float f
  | VStr s => quote s
  | VList l => "[" ++ join (map dumps l) ++ "]"
  | VDict kvs =>
      "{" ++ join (map (fun kv => match kv with
                                  | (k, x) => quote k ++ ": " ++ dumps x
                                  end) kvs) ++ "}"
  end.

(** [s] with the literal [lit] taken off its front. *)
Fixpoint expect (lit s : string) : option string :=
  match lit, s with
  | EmptyString, _ => Some s
  | String a lit', String b s' => if (a =? b)%char then expect lit' s' else None
  | String _ _, EmptyString => None
  end.

(** A dictionary from its members in document order: a repeated key keeps
    its first place and takes the last value, as in Python. *)
Definition build_dict (members : list (string * jval)) : list (string * jval) :=
  fold_left (fun d kv => dict_set d (fst kv) (snd kv)) members [].

Fixpoint parse_value (fuel : nat) (s : string) {struct fuel}
  : option (jval * string) :=
  match fuel with
  | O => None
  | S fuel' =>
      match s with
      | EmptyString => None
      | String c rest =>
          if (c =? "n")%char then
            match expect "ull" rest with Some r => Some (VNone, r) | None => None end
          else if (c =? "t")%char then
            match expect "rue" rest with Some r => Some (VBool true, r) | None => None end
          else if (c =? "f")%char then
            match expect "alse" rest with Some r => Some (VBool false, r) | None => None end
          else if (c =? dquote)%char then
            match parse_string rest with
            | Some (str, r) => Some (VStr str, r)
            | None => None
            end
          else if (c =? "[")%char then
            match skip_ws rest with
            | String c' r =>
                if (c' =? "]")%char then Some (VList [], r)
                else
                  match parse_items fuel' (String c' r) with
                  | Some (l, r') => Some (VList l, r')
                  | None => None
                  end
            | EmptyString => None
            end
          else if (c =? "{")%char then
            match skip_ws rest with
            | String c' r =>
                if (c' =? "}")%char then Some (VDict [], r)
                else
                  match parse_members fuel' (String c' r) with
                  | Some (kvs, r') => Some (VDict (build_dict kvs), r')
                  | None => None
                  end
            | EmptyString => None
            end
          else parse_number s
      end
  end

with parse_items (fuel : nat) (s : string) {struct fuel}
  : option (list jval * string) :=
  match fuel with
  | O => None
  | S fuel' =>
      match parse_value fuel' s with
      | Some (v, rest) =>
          match skip_ws rest with
          | String c r =>
              if (c =? ",")%char then
                match parse_items fuel' (skip_ws r) with
                | Some (vs, r') => Some (v :: vs, r')
                | None => None
                end
              else if (c =? "]")%char then Some ([v], r)
              else None
          | EmptyString => None
          end
      | None => None
      end
  end

with parse_members (fuel : nat) (s : string) {struct fuel}
  : option (list (string * jval) * string) :=
  match fuel with
  | O => None
  | S fuel' =>
      match s with
      | String c r0 =>
          if (c =? dquote)%char then
            match parse_string r0 with
            | Some (k, r1) =>
                match skip_ws r1 with
                | String c1 r2 =>
                    if (c1 =? ":")%char then
                      match parse_value fuel' (skip_ws r2) with
                      | Some (v, r3) =>
                          match skip_ws r3 with
                          | String c3 r4 =>
                              if (c3 =? ",")%char then
                                match parse_members fuel' (skip_ws r4) with
                                | Some (kvs, r5) => Some ((k, v) :: kvs, r5)
                                | None => None
                                end
                              else if (c3 =? "}")%char then Some ([(k, v)], r4)
                              else None
                          | EmptyString => None
                          end
                      | None => None
                      end
                    else None
                | EmptyString => None
                end
            | None => None
            end
          else None
      | EmptyString => None
      end
  end.

(** The parser goes through [S (String.length s)] rounds at most. *)
Definition loads (s : string) : result jval :=
  match parse_value (S (String.length s)) (skip_ws s) with
  | Some (v, rest) =>
      match skip_ws rest with
      | EmptyString => Ok v
      | _ => Err JSONDecodeError
      end
  | None => Err JSONDecodeError
  end.

(** The rounds the parser needs for the text of [v]. *)
Fixpoint rounds (v : jval) : nat :=
  match v with
  | VList l => S (list_sum (map (fun x => S (rounds x)) l))
  | VDict kvs =>
      S (list_sum (map (fun kv => match kv with (_, x) => S (rounds x) end) kvs))
  | _ => 1
  end.

(** *** Vocabulary of the codec's proof *)

(** The first character of [s], if any, is neither a digit nor a dot: a
    number printed before [s] ends where [s] starts. *)
Definition stops (s : string) : bool :=
  match s with
  | EmptyString => true
  | String c _ =>
      match digit_of_char c with
      | Some _ => false
      | None => negb (c =? ".")%char
      end
  end.

(** The characters a printed value starts with. *)
Definition starts_value (c : ascii) : bool :=
  (c =? "n")%char || (c =? "t")%char || (c =? "f")%char || (c =? dquote)%char
  || (c =? "[")%char || (c =? "{")%char || (c =? "-")%char
  || match digit_of_char c with Some _ => true | None => false end.

(** The characters a printed number starts with. *)
Definition starts_number (c : ascii) : bool :=
  (c =? "-")%char || match digit_of_char c with Some _ => true | None => false end.

Definition head_ok (s : string) : Prop :=
  exists c s', s = String c s' /\ starts_value c = true.

(** The text of a non-empty list after its opening bracket. *)
Definition items_text (l : list jval) (rest : string) : string :=
  join (map dumps l) ++ "]" ++ rest.

Definition member_text (kv : string * jval) : string :=
  match kv with (k, x) => quote k ++ ": " ++ dumps x end.

Definition members_text (kvs : list (string * jval)) (rest : string) : string :=
  join (map member_text kvs) ++ "}" ++ rest.

Definition reads_back (v : jval) : Prop :=
  wf v = true ->
  forall fuel rest,
    rounds v <= fuel -> stops rest = true ->
    parse_value fuel (dumps v ++ rest) = Some (v, rest).

End RefJson.

(** ** Vocabulary of the statements *)

(** [data], the argument of [Message.deserialize], carries the outer object
    with entries [kvs]: as the parsed object, or as a wire string that
    [json.loads] parses to it. *)
Definition outer_object {float} (json_loads : string -> result (value float))
    (data : value float) (kvs : list (string * value float)) : Prop :=
  data = VDict kvs \/ exists s, data = VStr s /\ json_loads s = Ok (VDict kvs).

(** The outer object lacks [signature], lacks [data], or has a [signature]
    that is not a string. *)
Definition malformed {float} (kvs : list (string * value float)) : Prop :=
  dict_get kvs "signature" = None \/
  dict_get kvs "data" = None \/
  exists v, dict_get kvs "signature" = Some v /\ is_str v = false.

(** The law of the [json] library that the envelope relies on: a value
    Python can build is read back as written. *)
Definition json_roundtrip {float} (json_dumps : value float -> string)
    (json_loads : string -> result (value float)) : Prop :=
  forall v : value float, wf v = true -> json_loads (json_dumps v) = Ok v.

(** The object [{header, body}] that [serialize_full] serializes and
    signs. *)
Definition signed_object {float} (tag : string) (now : float)
    (sender : string) (body : value float) : value float :=
  VDict [("header", VDict [("type", VStr tag);
                           ("timestamp", VFloat now);
                           ("sender", VStr sender)]);
         ("body", body)].

(** ** A concrete variant *)

(** The variant of the spec's scenario: discriminant ["PathsRequest"], body
    [{"source": ..., "target": ...}], with the decoder that rebuilds it and
    a registry that knows this variant only. *)
Module Scenario.

Definition PathsRequest (source target : string) : Message Z :=
  {| _type := VStr "PathsRequest";
     header := None;
     self_serialize_data :=
       Ok (VDict [("source", VStr source); ("target", VStr target)]);
     self_sign_data := sign_data |}.

Definition decode_PathsRequest (body : value Z) : result (Message Z) :=
  source ← getitem body "source";
  target ← getitem body "target";
  match source, target with
  | VStr s, VStr t => Ok (PathsRequest s t)
  | _, _ => Err (DecoderError "PathsRequest")
  end.

Definition registry : gmap string (value Z -> result (Message Z)) :=
  {[ "PathsRequest" := decode_PathsRequest ]}.

(** A stand-in for the address derivation. *)
Definition address_of (private_key : string) : string := "0x" ++ private_key.

Definition request : Message Z := PathsRequest "0xAAAA" "0xBBBB".

(** The clock reading of the scenario. *)
Definition now : Z := 1541234567.

(** The object [serialize_full] signs for [request] under the key ["S"],
    its text, and the wire string. *)
Definition inner : value Z :=
  signed_object "PathsRequest" now (address_of "S")
    (VDict [("source", VStr "0xAAAA"); ("target", VStr "0xBBBB")]).

Definition msg_data : string := RefJson.dumps inner.

Definition wire : string :=
  RefJson.dumps (envelope (sign_data "S" msg_data) msg_data).

(** An envelope around a message of type ["Ping"], which the registry does
    not know. *)
Definition ping : value Z :=
  VDict [("header", VDict [("type", VStr "Ping");
                           ("timestamp", VFloat now);
                           ("sender", VStr (address_of "S"))]);
         ("body", VDict [])].

Definition ping_envelope : list (string * value Z) :=
  [("signature", VStr (sign_data "S" (RefJson.dumps ping)));
   ("data", VStr (RefJson.dumps ping))].

(** An outer object without a [signature]. *)
Definition unsigned_envelope : list (string * value Z) :=
  [("data", VStr msg_data)].

(** A verifier for [sign_data]: it accepts a signature when it is the one
    [sign_data] makes. *)
Definition verify (signature data : string) : bool :=
  String.eqb signature "0x1111111111111111111111111111111".

End Scenario.

(** ** More vocabulary *)

(** [v] is the outer value [Message.deserialize] validates for the argument
    [data]: [data] itself when it is not a string, what [json.loads] makes
    of it when it is. *)
Definition outer_value {float} (json_loads : string -> result (value float))
    (data v : value float) : Prop :=
  (is_str data = false /\ v = data) \/
  exists s, data = VStr s /\ json_loads s = Ok v.

(** [isinstance(v, dict)] *)
Definition is_dict {float} (v : value float) : bool :=
  match v with VDict _ => true | _ => false end.

(** ** The console script of the pathfinding service *)

(** A shallow embedding of [pathfinding_service/cli.py].  The script talks
    to the file system, the key store, an Ethereum node and the service it
    starts; each such call is an event in a trace, and what the call
    returns or raises is read from a [world].  Exceptions are threaded
    through a state and exception monad whose state holds the trace and the
    local variables [service] and [api] that the [finally] clause of [main]
    reads. *)
Module cli.

(** The exceptions the script tells apart, each standing for its class and
    the subclasses of it; [Builtin] is a [KeyError] or [TypeError] of an
    indexing or an arithmetic operation, [Exception] anything else. *)
Inductive exn : Type :=
  | ValueError
  | ConnectionError
  | KeyboardInterrupt
  | SystemExit (code : Z)
  | Builtin (e : error)
  | Exception (name : string).

Inductive outcome (A : Type) : Type :=
  | Return (a : A)
  | Raise (e : exn).

Arguments Return {A} a.
Arguments Raise {A} e.

(** [except ValueError]; the decode error of [json] is a [ValueError]. *)
Definition is_ValueError (e : exn) : bool :=
  match e with
  | ValueError | Builtin JSONDecodeError => true
  | _ => false
  end.

(** [except ConnectionError] *)
Definition is_ConnectionError (e : exn) : bool :=
  match e with ConnectionError => true | _ => false end.

(** [except (KeyboardInterrupt, SystemExit)] *)
Definition is_interrupt_or_exit (e : exn) : bool :=
  match e with KeyboardInterrupt | SystemExit _ => true | _ => false end.

(** The keyword arguments of [PathfindingService(...)], without the two
    handles [web3] and [contract_manager]. *)
Record service_args {float : Type} : Type := mkArgs {
  registry_address : value float;
  sync_start_block : value float;
  required_confirmations : Z;
  private_key : string;
  poll_interval : value float;
  db_filename : string;
  service_fee : Z;
}.

Arguments service_args float : clear implicits.

Inductive event {float : Type} : Type :=
  | setup_logging (log_level : string)
  | log (level msg : string)
  | print (msg : string)
  | open_file (name : string)
  | close_file (name : string)
  | decrypt_keyfile (password : string)
  | web3_net_version (eth_rpc : string)
  | inject_middleware
  | replace_middleware
  | get_contracts_deployed (net_version : Z) (contracts_version : string)
  | new_PathfindingService (args : service_args float)
  | new_ServiceApi
  | api_run (host : string)
  | service_run
  | api_stop
  | service_stop.

Arguments event float : clear implicits.

(** What the calls outside the script return or raise. *)
Record world {float : Type} : Type := mkWorld {
  w_open : string -> outcome unit;
  w_decrypt : string -> string -> outcome string;
  w_net_version : string -> outcome Z;
  w_get_contracts_deployed : Z -> string -> outcome (value float);
  w_new_service : service_args float -> outcome unit;
  w_new_api : outcome unit;
  w_api_run : string -> outcome unit;
  w_service_run : outcome unit;
  w_api_stop : outcome unit;
  w_service_stop : outcome unit;
}.

Arguments world float : clear implicits.

(** The trace so far and the two locals of [main] that outlive an
    exception: whether [service] and [api] are bound to an object. *)
Record frame {float : Type} : Type := mkFrame {
  trace : list (event float);
  service : bool;
  api : bool;
}.

Arguments frame float : clear implicits.
Arguments mkFrame {float} trace service api.

Definition M (float A : Type) : Type :=
  frame float -> frame float * outcome A.

Section Monad.
Context {float : Type}.

Definition ret {A} (a : A) : M float A := fun s => (s, Return a).

Definition bind {A B} (m : M float A) (k : A -> M float B) : M float B :=
  fun s =>
    match m s with
    | (s', Return a) => k a s'
    | (s', Raise e) => (s', Raise e)
    end.

Definition raise {A} (e : exn) : M float A := fun s => (s, Raise e).

(** A call outside the script: the event, then its outcome. *)
Definition extern {A} (ev : event float) (o : outcome A) : M float A :=
  fun s =>
    ({| trace := trace s ++ [ev]; service := service s; api := api s |}, o).

(** A call that does not raise. *)
Definition emit (ev : event float) : M float unit := extern ev (Return tt).

(** An operation on values, with its [KeyError] or [TypeError]. *)
Definition lift {A} (r : result A) : M float A :=
  match r with
  | Ok a => ret a
  | Err e => raise (Builtin e)
  end.

(** [try: body except <handles>: handler] *)
Definition try_except {A} (body : M float A) (handles : exn -> bool)
    (handler : M float A) : M float A :=
  fun s =>
    match body s with
    | (s', Raise e) => if handles e then handler s' else (s', Raise e)
    | r => r
    end.

(** [try: body finally: final]: [final] runs in every case, and what it
    raises replaces the outcome of [body]. *)
Definition try_finally {A} (body : M float A) (final : M float unit)
  : M float A :=
  fun s =>
    match body s with
    | (s1, r) =>
        match final s1 with
        | (s2, Return _) => (s2, r)
        | (s2, Raise e) => (s2, Raise e)
        end
    end.

(** [sys.exit(code)] *)
Definition sys_exit {A} (code : Z) : M float A := raise (SystemExit code).

(** [service = <object>], [api = <object>] and their reset to [None]. *)
Definition set_service (bound : bool) : M float unit :=
  fun s => ({| trace := trace s; service := bound; api := api s |}, Return tt).

Definition set_api (bound : bool) : M float unit :=
  fun s => ({| trace := trace s; service := service s; api := bound |}, Return tt).

Definition get_service : M float bool := fun s => (s, Return (service s)).
Definition get_api : M float bool := fun s => (s, Return (api s)).

End Monad.

#[export] Instance M_ret {float} : MRet (M float) := fun A a => ret a.
#[export] Instance M_bind {float} : MBind (M float) := fun A B k m => bind m k.

Section Script.
Context {float : Type}.
Abbreviation val := (value float).

(** [f - n] and [f > n] on a float [f] and an integer [n]. *)
Variable float_sub : float -> Z -> float.
Variable float_gt : float -> Z -> bool.

(** [raiden_contracts.constants.CONTRACT_TOKEN_NETWORK_REGISTRY] and
    [pathfinding_service.config.DEFAULT_POLL_INTERVALL]. *)
Variable CONTRACT_TOKEN_NETWORK_REGISTRY : string.
Variable DEFAULT_POLL_INTERVALL : val.

Variable w : world float.

(** [v - n] for an integer [n]; a boolean counts as 0 or 1. *)
Definition py_sub (v : val) (n : Z) : result val :=
  match v with
  | VInt a => Ok (VInt (a - n))
  | VBool b => Ok (VInt ((if b then 1 else 0) - n))
  | VFloat f => Ok (VFloat (float_sub f n))
  | _ => Err TypeError
  end.

(** [max(0, v)]: [v] when [v > 0], the integer 0 otherwise. *)
Definition py_max0 (v : val) : result val :=
  match v with
  | VInt a => Ok (VInt (Z.max 0 a))
  | VBool b => Ok (if b then VBool true else VInt 0)
  | VFloat f => Ok (if float_gt f 0 then VFloat f else VInt 0)
  | _ => Err TypeError
  end.

(** [get_default_registry_and_start_block] *)
Definition get_default_registry_and_start_block
    (net_version : Z) (contracts_version : string) : M float (val * val) :=
  try_except
    (contract_data ← extern (get_contracts_deployed net_version contracts_version)
                       (w_get_contracts_deployed w net_version contracts_version);
     contracts ← lift (getitem contract_data "contracts");
     token_network_registry_info ←
       lift (getitem contracts CONTRACT_TOKEN_NETWORK_REGISTRY);
     registry_address ← lift (getitem token_network_registry_info "address");
     block_number ← lift (getitem token_network_registry_info "block_number");
     difference ← lift (py_sub block_number 100);
     start_block ← lift (py_max0 difference);
     ret (registry_address, start_block))
    is_ValueError
    (_ ← emit (log "error" "No deployed contracts were found at the default registry");
     sys_exit 1).

(** [with open(name, 'r') as keystore: body] *)
Definition with_open {A} (name : string) (body : M float A) : M float A :=
  _ ← extern (open_file name) (w_open w name);
  try_finally body (emit (close_file name)).

(** [main], as [click] calls it with the parsed options. *)
Definition main (keystore_file password eth_rpc : string)
    (registry_address start_block : val) (confirmations : Z)
    (host log_level state_db : string) (service_fee : Z) : M float Z :=
  _ ← emit (setup_logging log_level);
  _ ← emit (log "info" "Starting Raiden Pathfinding Service");
  let contracts_version := "0.3._" in
  _ ← emit (log "info" ("Using contracts version: " ++ contracts_version));
  private_key ←
    with_open keystore_file
      (try_except
         (extern (decrypt_keyfile password) (w_decrypt w keystore_file password))
         is_ValueError
         (_ ← emit (log "critical"
                      "Could not decode keyfile with given password. Please try again.");
          sys_exit 1));
  net_version ←
    try_except
      (_ ← emit (log "info" ("Starting Web3 client for node at " ++ eth_rpc));
       extern (web3_net_version eth_rpc) (w_net_version w eth_rpc))
      is_ConnectionError
      (_ ← emit (log "error"
                   "Can not connect to the Ethereum client. Please check that it is running and that your settings are correct.");
       sys_exit 1);
  _ ← emit inject_middleware;
  _ ← emit replace_middleware;
  '(registry_address, start_block) ←
    (match registry_address with
     | VNone => get_default_registry_and_start_block net_version contracts_version
     | _ => ret (registry_address, start_block)
     end);
  _ ← set_service false;
  _ ← set_api false;
  _ ← try_finally
        (try_except
           (_ ← emit (log "info" "Starting Pathfinding Service...");
            let args :=
              {| registry_address := registry_address;
                 sync_start_block := start_block;
                 required_confirmations := confirmations;
                 private_key := private_key;
                 poll_interval := DEFAULT_POLL_INTERVALL;
                 db_filename := state_db;
                 service_fee := service_fee |} in
            _ ← extern (new_PathfindingService args) (w_new_service w args);
            _ ← set_service true;
            _ ← extern new_ServiceApi (w_new_api w);
            _ ← set_api true;
            _ ← extern (api_run host) (w_api_run w host);
            extern service_run (w_service_run w))
           is_interrupt_or_exit
           (emit (print "Exiting...")))
        (_ ← emit (log "info" "Stopping Pathfinding Service...");
         bound ← get_api;
         _ ← (if bound : bool then extern api_stop (w_api_stop w) else ret tt);
         bound ← get_service;
         if bound : bool then extern service_stop (w_service_stop w) else ret tt);
  ret 0%Z.

(** The three stages [main] goes through, each on its own: the start-up
    down to the node's network version, the choice of the registry, and the
    [try] statement around the service. *)
Definition startup (keystore_file password eth_rpc log_level : string)
  : M float (string * Z) :=
  _ ← emit (setup_logging log_level);
  _ ← emit (log "info" "Starting Raiden Pathfinding Service");
  let contracts_version := "0.3._" in
  _ ← emit (log "info" ("Using contracts version: " ++ contracts_version));
  private_key ←
    with_open keystore_file
      (try_except
         (extern (decrypt_keyfile password) (w_decrypt w keystore_file password))
         is_ValueError
         (_ ← emit (log "critical"
                      "Could not decode keyfile with given password. Please try again.");
          sys_exit 1));
  net_version ←
    try_except
      (_ ← emit (log "info" ("Starting Web3 client for node at " ++ eth_rpc));
       extern (web3_net_version eth_rpc) (w_net_version w eth_rpc))
      is_ConnectionError
      (_ ← emit (log "error"
                   "Can not connect to the Ethereum client. Please check that it is running and that your settings are correct.");
       sys_exit 1);
  _ ← emit inject_middleware;
  _ ← emit replace_middleware;
  ret (private_key, net_version).

Definition choose_registry (registry_address start_block : val)
    (net_version : Z) : M float (val * val) :=
  match registry_address with
  | VNone => get_default_registry_and_start_block net_version "0.3._"
  | _ => ret (registry_address, start_block)
  end.

Definition serve (args : service_args float) (host : string) : M float unit :=
  _ ← set_service false;
  _ ← set_api false;
  try_finally
    (try_except
       (_ ← emit (log "info" "Starting Pathfinding Service...");
        _ ← extern (new_PathfindingService args) (w_new_service w args);
        _ ← set_service true;
        _ ← extern new_ServiceApi (w_new_api w);
        _ ← set_api true;
        _ ← extern (api_run host) (w_api_run w host);
        extern service_run (w_service_run w))
       is_interrupt_or_exit
       (emit (print "Exiting...")))
    (_ ← emit (log "info" "Stopping Pathfinding Service...");
     bound ← get_api;
     _ ← (if bound : bool then extern api_stop (w_api_stop w) else ret tt);
     bound ← get_service;
     if bound : bool then extern service_stop (w_service_stop w) else ret tt).

(** The events of each stage. *)
Definition startup_event (ev : event float) : bool :=
  match ev with
  | setup_logging _ | log _ _ | open_file _ | close_file _
  | decrypt_keyfile _ | web3_net_version _
  | inject_middleware | replace_middleware => true
  | _ => false
  end.

Definition registry_event (ev : event float) : bool :=
  match ev with
  | get_contracts_deployed _ _ | log _ _ => true
  | _ => false
  end.

Definition serve_event (args : service_args float) (host : string)
    (ev : event float) : Prop :=
  match ev with
  | log _ _ | print _ | new_ServiceApi | service_run | api_stop
  | service_stop => True
  | new_PathfindingService args' => args' = args
  | api_run host' => host' = host
  | _ => False
  end.

(** A call that returns, or raises what the [try] statement of [main]
    catches: [KeyboardInterrupt] or [SystemExit]. *)
Definition quiet {A} (o : outcome A) : bool :=
  match o with
  | Return _ => true
  | Raise e => is_interrupt_or_exit e
  end.

(** A run of [main] from the start: no event yet. *)
Definition run {A} (m : M float A) : frame float * outcome A :=
  m {| trace := []; service := false; api := false |}.

End Script.

End cli.

(** ** More of the scenario *)

Module MoreScenario.
Import Scenario.

(** A message whose discriminant is a number and whose class is the base
    class, and one of the base class with a discriminant. *)
Definition numbered : Message Z :=
  {| _type := VInt 5; header := None;
     self_serialize_data := serialize_data; self_sign_data := sign_data |}.

Definition abstract : Message Z :=
  {| _type := VStr "Message"; header := None;
     self_serialize_data := serialize_data; self_sign_data := sign_data |}.

(** [request] after the assignment [request.type = 5]. *)
Definition retyped : Message Z :=
  {| _type := VInt 5; header := None;
     self_serialize_data := self_serialize_data request;
     self_sign_data := sign_data |}.

(** The outer object of [wire], and one around a string that is not
    JSON. *)
Definition outer : list (string * value Z) :=
  [("signature", VStr (sign_data "S" msg_data)); ("data", VStr msg_data)].

Definition garbled : list (string * value Z) :=
  [("signature", VStr "0x"); ("data", VStr "not json")].


(** A console script on integers for floats, with deployment data that
    names the registry at block 250. *)
Definition REGISTRY : string := "TokenNetworkRegistry".
Definition POLL : value Z := VInt 10.

Definition deployment : value Z :=
  VDict [("contracts",
          VDict [(REGISTRY, VDict [("address", VStr "0xREG");
                                   ("block_number", VInt 250)])])].

Definition no_registry : value Z :=
  VDict [("contracts", VDict [("SecretRegistry", VDict [])])].

(** A world where every call returns. *)
Definition calm : cli.world Z :=
  {| cli.w_open := fun _ => cli.Return tt;
     cli.w_decrypt := fun _ _ => cli.Return "key";
     cli.w_net_version := fun _ => cli.Return 3%Z;
     cli.w_get_contracts_deployed := fun _ _ => cli.Return deployment;
     cli.w_new_service := fun _ => cli.Return tt;
     cli.w_new_api := cli.Return tt;
     cli.w_api_run := fun _ => cli.Return tt;
     cli.w_service_run := cli.Return tt;
     cli.w_api_stop := cli.Return tt;
     cli.w_service_stop := cli.Return tt |}.

(** The same world with one call changed. *)
Definition wrong_password : cli.world Z :=
  {| cli.w_open := cli.w_open calm;
     cli.w_decrypt := fun _ _ => cli.Raise cli.ValueError;
     cli.w_net_version := cli.w_net_version calm;
     cli.w_get_contracts_deployed := cli.w_get_contracts_deployed calm;
     cli.w_new_service := cli.w_new_service calm;
     cli.w_new_api := cli.w_new_api calm;
     cli.w_api_run := cli.w_api_run calm;
     cli.w_service_run := cli.w_service_run calm;
     cli.w_api_stop := cli.w_api_stop calm;
     cli.w_service_stop := cli.w_service_stop calm |}.

Definition node_down : cli.world Z :=
  {| cli.w_open := cli.w_open calm;
     cli.w_decrypt := cli.w_decrypt calm;
     cli.w_net_version := fun _ => cli.Raise cli.ConnectionError;
     cli.w_get_contracts_deployed := cli.w_get_contracts_deployed calm;
     cli.w_new_service := cli.w_new_service calm;
     cli.w_new_api := cli.w_new_api calm;
     cli.w_api_run := cli.w_api_run calm;
     cli.w_service_run := cli.w_service_run calm;
     cli.w_api_stop := cli.w_api_stop calm;
     cli.w_service_stop := cli.w_service_stop calm |}.

Definition with_deployment (o : cli.outcome (value Z)) : cli.world Z :=
  {| cli.w_open := cli.w_open calm;
     cli.w_decrypt := cli.w_decrypt calm;
     cli.w_net_version := cli.w_net_version calm;
     cli.w_get_contracts_deployed := fun _ _ => o;
     cli.w_new_service := cli.w_new_service calm;
     cli.w_new_api := cli.w_new_api calm;
     cli.w_api_run := cli.w_api_run calm;
     cli.w_service_run := cli.w_service_run calm;
     cli.w_api_stop := cli.w_api_stop calm;
     cli.w_service_stop := cli.w_service_stop calm |}.

Definition with_service (api_made run_done api_stopped : cli.outcome unit)
  : cli.world Z :=
  {| cli.w_open := cli.w_open calm;
     cli.w_decrypt := cli.w_decrypt calm;
     cli.w_net_version := cli.w_net_version calm;
     cli.w_get_contracts_deployed := cli.w_get_contracts_deployed calm;
     cli.w_new_service := cli.w_new_service calm;
     cli.w_new_api := api_made;
     cli.w_api_run := cli.w_api_run calm;
     cli.w_service_run := run_done;
     cli.w_api_stop := api_stopped;
     cli.w_service_stop := cli.w_service_stop calm |}.

(** [main] with the options of a run against a given registry, and of one
    against the default registry. *)
Definition main_given (w : cli.world Z) : cli.M Z Z :=
  cli.main Z.sub Z.gtb REGISTRY POLL w "keystore.json" "secret"
    "http://localhost:8545" (VStr "0xGIVEN") (VInt 7) 8 "localhost" "INFO"
    "state.db" 0.

Definition main_default (w : cli.world Z) (start_block : value Z)
  : cli.M Z Z :=
  cli.main Z.sub Z.gtb REGISTRY POLL w "keystore.json" "secret"
    "http://localhost:8545" VNone start_block 8 "localhost" "INFO"
    "state.db" 0.


Definition default_args : cli.service_args Z :=
  {| cli.registry_address := VStr "0xREG";
     cli.sync_start_block := VInt 150;
     cli.required_confirmations := 8;
     cli.private_key := "key";
     cli.poll_interval := POLL;
     cli.db_filename := "state.db";
     cli.service_fee := 0 |}.

Definition initial : cli.frame Z :=
  {| cli.trace := []; cli.service := false; cli.api := false |}.

End MoreScenario.

(** * Properties *)

(** ** Dictionaries *)

Section DictFacts.
Context {float : Type}.
Implicit Types (kvs : list (string * value float)) (k : string).

Lemma dict_get_set_eq kvs k v : dict_get (dict_set kvs k v) k = Some v.
Proof.
  induction kvs as [|[k' v'] rest IH]; simpl.
  - by rewrite String.eqb_refl.
  - destruct (String.eqb k' k) eqn:E; simpl; by rewrite E.
Qed.

Lemma dict_get_set_ne kvs k k' v :
  k <> k' -> dict_get (dict_set kvs k v) k' = dict_get kvs k'.
Proof.
  intros Hne. induction kvs as [|[k0 v0] rest IH]; simpl.
  - destruct (String.eqb_spec k k'); [done | reflexivity].
  - destruct (String.eqb_spec k0 k) as [->|]; simpl.
    + destruct (String.eqb_spec k k'); [done | reflexivity].
    + by rewrite IH.
Qed.

End DictFacts.

(** ** The validator on the envelope schema *)

Section Validator.
Context {float : Type}.
Implicit Types (kvs : list (string * value float)).
Import jsonschema json_schema.

(** What the envelope schema accepts: an object with entries [signature]
    and [data], both strings. *)
Lemma validate_envelope_inv (v : value float) :
  validate v ENVELOPE_SCHEMA = Ok tt ->
  exists kvs sig d,
    v = VDict kvs /\
    dict_get kvs "signature" = Some (VStr sig) /\
    dict_get kvs "data" = Some (VStr d).
Proof.
  unfold validate, ENVELOPE_SCHEMA; simpl.
  destruct v as [| | | | |l|kvs]; simpl; try discriminate.
  destruct (dict_get kvs "signature") as [vs|] eqn:Hs; [|discriminate].
  destruct (dict_get kvs "data") as [vd|] eqn:Hd; [|discriminate].
  destruct vs; simpl; try discriminate.
  destruct vd; simpl; try discriminate.
  intros _. eauto 10.
Qed.

Lemma validate_envelope_malformed kvs :
  malformed kvs ->
  exists what, validate (VDict kvs) ENVELOPE_SCHEMA = Err (SchemaError what).
Proof.
  unfold validate, ENVELOPE_SCHEMA; simpl.
  intros [Hs | [Hd | (v & Hs & Hv)]].
  - rewrite Hs. eauto.
  - destruct (dict_get kvs "signature"); rewrite ?Hd; eauto.
  - rewrite Hs.
    destruct (dict_get kvs "data"); [|eauto].
    destruct v; simpl in *; try discriminate; eauto.
Qed.

End Validator.

(** ** Signing *)

(** C2.  [sign_data] is constant: whatever the private key and the data,
    it returns the string ["0x1111111111111111111111111111111"]. *)
Theorem sign_data_constant (private_key1 data1 private_key2 data2 : string) :
  sign_data private_key1 data1 = sign_data private_key2 data2 /\
  sign_data private_key1 data1 = "0x1111111111111111111111111111111".
Proof. split; reflexivity. Qed.

(** ** The discriminant *)

(** C8.  The setter of [type] tests the discriminant that is stored, not the
    value that is assigned: whether an assignment goes through depends on
    the stored discriminant alone.  On a fresh message the assignment of the
    string ["PathsRequest"] fails the assertion, and on a message whose
    discriminant is a string the assignment of the integer 5 goes through
    and stores 5. *)
Theorem type_setter_tests_stored_value :
  (forall (self : Message Z) (value : value Z),
     is_ok (type_setter self value) = is_str (_type self)) /\
  type_setter (float:=Z) __init__ (VStr "PathsRequest") = Err AssertionError /\
  exists m, type_setter Scenario.request (VInt 5) = Ok m /\ _type m = VInt 5.
Proof.
  split; [|split].
  - intros self value. unfold type_setter. by destruct (_type self).
  - reflexivity.
  - eexists. split; reflexivity.
Qed.

(** C9.  On a message whose stored discriminant is [None], as it is after
    [__init__], every assignment through the setter of [type] fails the
    assertion, whatever the value assigned. *)
Theorem type_setter_fresh {float} (self : Message float) (value : value float) :
  _type self = VNone -> type_setter self value = Err AssertionError.
Proof. intros H. unfold type_setter. by rewrite H. Qed.

(** ** The envelope *)

Section Envelope.
Context {float : Type}.
Variable json_dumps : value float -> string.
Variable json_loads : string -> result (value float).
Variable privkey_to_addr : string -> string.

Implicit Types (self cls : Message float) (body hdr : value float).
Implicit Types (decode : value float -> result (Message float)).
Implicit Types (registry : gmap string (value float -> result (Message float))).

Abbreviation serialize := (serialize_full json_dumps privkey_to_addr).
Abbreviation disassemble := (deserialize json_loads).

(** *** Outbound path *)

Lemma assemble_message_ok now self tag body :
  _type self = VStr tag ->
  self_serialize_data self = Ok body ->
  assemble_message now self =
    Ok (VDict [("header", VDict [("type", VStr tag);
                                 ("timestamp", VFloat now);
                                 ("sender", VNone)]);
               ("body", body)]).
Proof.
  intros Ht Hb. unfold assemble_message, type. rewrite Ht, Hb. reflexivity.
Qed.

(** [serialize_full] in closed form. *)
Lemma serialize_full_ok now self private_key tag body :
  _type self = VStr tag ->
  self_serialize_data self = Ok body ->
  let msg_data :=
    json_dumps (signed_object tag now (privkey_to_addr private_key) body) in
  serialize now self private_key =
    Ok (json_dumps (envelope (self_sign_data self private_key msg_data) msg_data)).
Proof.
  intros Ht Hb. unfold serialize_full.
  rewrite (assemble_message_ok now self tag body Ht Hb). reflexivity.
Qed.

(** [serialize_full] returns only for a string discriminant and a body. *)
Lemma serialize_full_inv now self private_key wire :
  serialize now self private_key = Ok wire ->
  exists tag body, _type self = VStr tag /\ self_serialize_data self = Ok body.
Proof.
  unfold serialize_full, assemble_message, type.
  destruct (_type self) as [| | | |tag| |]; simpl; try discriminate.
  destruct (self_serialize_data self) as [body|e]; simpl; try discriminate.
  eauto.
Qed.

Lemma wf_envelope sig d : wf (envelope (float:=float) sig d) = true.
Proof. reflexivity. Qed.

Lemma wf_signed_object tag now sender body :
  wf body = true -> wf (signed_object tag now sender body) = true.
Proof. intros Hb. simpl. by rewrite Hb. Qed.

(** *** Inbound path *)

(** [Message.deserialize] on an outer object that passes the schema. *)
Lemma deserialize_valid decode data kvs s :
  outer_object json_loads data kvs ->
  jsonschema.validate (VDict kvs) json_schema.ENVELOPE_SCHEMA = Ok tt ->
  dict_get kvs "data" = Some (VStr s) ->
  disassemble decode data =
    (json_data ← json_loads s;
     cls ← decode json_data;
     hdr ← getitem json_data "header";
     Ok (set_header cls hdr)).
Proof.
  intros Hout Hval Hd. unfold deserialize.
  destruct Hout as [-> | (w & -> & ->)]; simpl;
    rewrite Hval; simpl; rewrite Hd; reflexivity.
Qed.

Lemma deserialize_inv decode data m :
  disassemble decode data = Ok m ->
  exists kvs s json_data cls hdr,
    outer_object json_loads data kvs /\
    jsonschema.validate (VDict kvs) json_schema.ENVELOPE_SCHEMA = Ok tt /\
    dict_get kvs "data" = Some (VStr s) /\
    json_loads s = Ok json_data /\
    decode json_data = Ok cls /\
    getitem json_data "header" = Ok hdr /\
    m = set_header cls hdr.
Proof.
  unfold deserialize. intros H.
  set (outer := match data with VStr s => json_loads s | _ => Ok data end) in H.
  destruct outer as [json_message|e] eqn:Hout; [|discriminate]. simpl in H.
  destruct (jsonschema.validate json_message json_schema.ENVELOPE_SCHEMA)
    as [[]|e] eqn:Hval; [|discriminate]. simpl in H.
  destruct (validate_envelope_inv _ Hval) as (kvs & sig & s & -> & Hs & Hd).
  simpl in H. rewrite Hd in H. simpl in H.
  destruct (json_loads s) as [json_data|e] eqn:Hin; [|discriminate]. simpl in H.
  destruct (decode json_data) as [cls|e] eqn:Hcls; [|discriminate].
  simpl in H.
  destruct (getitem json_data "header") as [hdr|e] eqn:Hh; [|discriminate].
  simpl in H. injection H as <-.
  exists kvs, s, json_data, cls, hdr. repeat split; try done.
  subst outer. destruct data; try (left; congruence).
  right. eauto.
Qed.

(** *** The envelope on the wire *)

(** C1.  The signature that [serialize_full] stores does not authenticate
    the data stored with it.  For a message that signs with [sign_data],
    and a verifier that accepts every string under the signature
    [sign_data] makes for it, the stored signature verifies against every
    string put in the place of the stored data. *)
Theorem tampered_data_verifies (verify : string -> string -> bool)
    now self private_key wire :
  self_sign_data self = sign_data ->
  (forall key data, verify (sign_data key data) data = true) ->
  serialize now self private_key = Ok wire ->
  exists signature msg_data,
    wire = json_dumps (envelope signature msg_data) /\
    signature = self_sign_data self private_key msg_data /\
    forall tampered, verify signature tampered = true.
Proof.
  intros Hsign Hcomplete Hser.
  destruct (serialize_full_inv _ _ _ _ Hser) as (tag & body & Ht & Hb).
  pose proof (serialize_full_ok now self private_key tag body Ht Hb) as Heq.
  simpl in Heq. rewrite Heq in Hser. injection Hser as <-.
  eexists _, _. split; [reflexivity|]. split; [reflexivity|].
  intros tampered. rewrite Hsign. exact (Hcomplete private_key tampered).
Qed.

(** C3.  Round trip: a message with a string discriminant, whose variant is
    registered under that discriminant with a decoder that rebuilds it from
    its body, is serialized by [serialize_full] to a wire string that
    [Message.deserialize] turns into a message with the same body, carrying
    a header whose [type] is the discriminant. *)
Theorem deserialize_serialize_full
    registry now self private_key tag body decoder cls :
  json_roundtrip json_dumps json_loads ->
  _type self = VStr tag ->
  self_serialize_data self = Ok body ->
  wf body = true ->
  registry !! tag = Some decoder ->
  decoder body = Ok cls ->
  self_serialize_data cls = Ok body ->
  exists wire m hdr,
    serialize now self private_key = Ok wire /\
    disassemble (deserializer.deserialize registry) (VStr wire) = Ok m /\
    self_serialize_data m = Ok body /\
    header m = Some hdr /\
    getitem hdr "type" = Ok (VStr tag).
Proof.
  intros Hlaw Ht Hb Hwf Hreg Hdec Hcls.
  pose proof (serialize_full_ok now self private_key tag body Ht Hb) as Hser.
  simpl in Hser.
  set (inner := signed_object tag now (privkey_to_addr private_key) body) in *.
  set (sig := self_sign_data self private_key (json_dumps inner)) in *.
  exists (json_dumps (envelope sig (json_dumps inner))), (set_header cls
    (VDict [("type", VStr tag); ("timestamp", VFloat now);
            ("sender", VStr (privkey_to_addr private_key))])).
  eexists. split; [exact Hser|]. split; [|by auto].
  rewrite (deserialize_valid (deserializer.deserialize registry) _
             [("signature", VStr sig); ("data", VStr (json_dumps inner))]
             (json_dumps inner)); cycle 1.
  - right. eexists. split; [reflexivity|]. apply Hlaw, wf_envelope.
  - reflexivity.
  - reflexivity.
  - rewrite Hlaw by (by apply wf_signed_object). simpl.
    unfold deserializer.deserialize. simpl. rewrite Hreg. simpl.
    rewrite Hdec. reflexivity.
Qed.

(** C4.  Schema rejection: when the outer object lacks [signature], lacks
    [data] or has a [signature] that is not a string, [Message.deserialize]
    raises the schema error, whatever [json.loads] would make of the inner
    string and whatever the deserializer, with its registry and decoders,
    would do: neither is reached. *)
Theorem deserialize_schema_error decode data kvs :
  outer_object json_loads data kvs ->
  malformed kvs ->
  exists what, disassemble decode data = Err (SchemaError what).
Proof.
  intros Hout Hbad.
  destruct (validate_envelope_malformed kvs Hbad) as [what Hval].
  exists what. unfold deserialize.
  destruct Hout as [-> | (w & -> & ->)]; simpl; by rewrite Hval.
Qed.

(** C5.  Unknown type: on an outer object that passes the schema and whose
    inner [header.type] is a string without a registered decoder,
    [Message.deserialize] fails with [UnknownTypeError]. *)
Theorem deserialize_unknown_type registry data kvs s json_data hdr tag :
  outer_object json_loads data kvs ->
  jsonschema.validate (VDict kvs) json_schema.ENVELOPE_SCHEMA = Ok tt ->
  dict_get kvs "data" = Some (VStr s) ->
  json_loads s = Ok json_data ->
  getitem json_data "header" = Ok hdr ->
  getitem hdr "type" = Ok (VStr tag) ->
  registry !! tag = None ->
  disassemble (deserializer.deserialize registry) data =
    Err (UnknownTypeError tag).
Proof.
  intros Hout Hval Hd Hin Hh Ht Hreg.
  rewrite (deserialize_valid _ data kvs s Hout Hval Hd).
  rewrite Hin. simpl. unfold deserializer.deserialize.
  rewrite Hh. simpl. rewrite Ht. simpl. by rewrite Hreg.
Qed.

(** C6.  For a message whose discriminant is the string [tag],
    [serialize_full] returns a wire string whose [data] parses to an object
    with header [type] equal to [tag], header [sender] equal to
    [privkey_to_addr private_key] and [body] equal to what
    [serialize_data()] returned. *)
Theorem serialize_full_contents now self private_key tag body :
  json_roundtrip json_dumps json_loads ->
  _type self = VStr tag ->
  self_serialize_data self = Ok body ->
  wf body = true ->
  exists wire outer msg_data inner hdr,
    serialize now self private_key = Ok wire /\
    json_loads wire = Ok outer /\
    getitem outer "data" = Ok (VStr msg_data) /\
    json_loads msg_data = Ok inner /\
    getitem inner "header" = Ok hdr /\
    getitem hdr "type" = Ok (VStr tag) /\
    getitem hdr "sender" = Ok (VStr (privkey_to_addr private_key)) /\
    getitem inner "body" = Ok body.
Proof.
  intros Hlaw Ht Hb Hwf.
  pose proof (serialize_full_ok now self private_key tag body Ht Hb) as Hser.
  simpl in Hser.
  set (inner := signed_object tag now (privkey_to_addr private_key) body) in *.
  set (sig := self_sign_data self private_key (json_dumps inner)) in *.
  exists (json_dumps (envelope sig (json_dumps inner))),
    (envelope sig (json_dumps inner)), (json_dumps inner), inner.
  eexists. split; [exact Hser|].
  split; [apply Hlaw, wf_envelope|].
  split; [reflexivity|].
  split; [by apply Hlaw, wf_signed_object|].
  repeat split; reflexivity.
Qed.

(** C7.  Whenever [serialize_full] returns, the wire string is the
    serialization of an envelope whose [data] is the very string
    [msg_data] that [self.sign_data] was called on to produce its
    [signature], and that is what a reader of the wire string finds
    there. *)
Theorem serialize_full_signs_stored_data now self private_key wire :
  json_roundtrip json_dumps json_loads ->
  serialize now self private_key = Ok wire ->
  exists msg_data outer,
    wire = json_dumps (envelope (self_sign_data self private_key msg_data) msg_data) /\
    json_loads wire = Ok outer /\
    getitem outer "data" = Ok (VStr msg_data) /\
    getitem outer "signature" =
      Ok (VStr (self_sign_data self private_key msg_data)).
Proof.
  intros Hlaw Hser.
  destruct (serialize_full_inv _ _ _ _ Hser) as (tag & body & Ht & Hb).
  pose proof (serialize_full_ok now self private_key tag body Ht Hb) as Heq.
  simpl in Heq. rewrite Heq in Hser. injection Hser as <-.
  eexists. eexists. split; [reflexivity|].
  split; [apply Hlaw, wf_envelope|]. split; reflexivity.
Qed.

(** C10.  The header of a message that [Message.deserialize] returns is the
    [header] entry of the object parsed from the inner [data] string, as
    parsed; the decoder's result is changed in that attribute only. *)
Theorem deserialize_header_verbatim decode data m :
  disassemble decode data = Ok m ->
  exists kvs s json_data cls hdr,
    outer_object json_loads data kvs /\
    dict_get kvs "data" = Some (VStr s) /\
    json_loads s = Ok json_data /\
    getitem json_data "header" = Ok hdr /\
    decode json_data = Ok cls /\
    header m = Some hdr /\
    m = set_header cls hdr.
Proof.
  intros H.
  destruct (deserialize_inv decode data m H)
    as (kvs & s & json_data & cls & hdr & Hout & _ & Hd & Hin & Hcls & Hh & ->).
  exists kvs, s, json_data, cls, hdr. by repeat split.
Qed.

End Envelope.

(** ** The reference codec reads back what it writes *)

Module RefJsonFacts.
Import RefJson.

#[local] Arguments String.append : simpl nomatch.

Lemma append_assoc (s t u : string) : (s ++ t) ++ u = s ++ (t ++ u).
Proof. induction s as [|c s IH]; simpl; [done | by rewrite IH]. Qed.

Lemma append_nil_r (s : string) : s ++ "" = s.
Proof. induction s as [|c s IH]; simpl; [done | by rewrite IH]. Qed.

Lemma length_append (s t : string) :
  String.length (s ++ t) = String.length s + String.length t.
Proof. induction s as [|c s IH]; simpl; [done | by rewrite IH]. Qed.

Ltac ascii_cases c :=
  destruct c as [[] [] [] [] [] [] [] []].

Lemma starts_value_not_ws c : starts_value c = true -> is_ws c = false.
Proof. ascii_cases c; vm_compute; congruence. Qed.

Lemma skip_ws_head s : head_ok s -> skip_ws s = s.
Proof.
  intros (c & s' & -> & Hc). simpl. by rewrite (starts_value_not_ws c Hc).
Qed.

Lemma head_ok_app s t : head_ok s -> head_ok (s ++ t).
Proof. intros (c & s' & -> & Hc). exists c, (s' ++ t). by split. Qed.

(** *** Numbers *)

Lemma read_uint_print (u : uint) (rest : string) :
  match rest with
  | String c _ => digit_of_char c = None
  | EmptyString => True
  end ->
  read_uint (NilEmpty.string_of_uint u ++ rest) = (u, rest).
Proof.
  intros Hrest. induction u; simpl; try (by rewrite IHu).
  destruct rest as [|c r]; [done|]. simpl. by rewrite Hrest.
Qed.

Lemma stops_no_digit rest :
  stops rest = true ->
  match rest with
  | String c _ => digit_of_char c = None
  | EmptyString => True
  end.
Proof.
  destruct rest as [|c r]; [done|]. simpl.
  by destruct (digit_of_char c).
Qed.

Lemma print_uint_head (u : uint) :
  u <> Nil ->
  exists c s, NilEmpty.string_of_uint u = String c s /\
              digit_of_char c <> None.
Proof. destruct u; [done|..]; intros _; simpl; eauto. Qed.

Lemma to_int_digits (z : Z) :
  exists u, u <> Nil /\ (Z.to_int z = Pos u \/ Z.to_int z = Neg u).
Proof.
  destruct z as [|p|p]; simpl.
  - exists (D0 Nil). split; [done | by left].
  - exists (Pos.to_uint p). split; [apply DecimalPos.Unsigned.to_uint_nonnil | by left].
  - exists (Pos.to_uint p). split; [apply DecimalPos.Unsigned.to_uint_nonnil | by right].
Qed.

Lemma print_int_number_head (z : Z) :
  exists c s, print_int z = String c s /\ starts_number c = true.
Proof.
  unfold print_int.
  destruct (to_int_digits z) as (u & Hu & [-> | ->]); simpl.
  - destruct (print_uint_head u Hu) as (c & s & -> & Hc).
    exists c, s. split; [done|]. unfold starts_number.
    destruct (digit_of_char c); [|done]. by rewrite orb_true_r.
  - by eexists _, _.
Qed.

Lemma starts_number_value c : starts_number c = true -> starts_value c = true.
Proof. ascii_cases c; vm_compute; congruence. Qed.

Lemma print_int_head (z : Z) : head_ok (print_int z).
Proof.
  destruct (print_int_number_head z) as (c & s & Heq & Hc).
  exists c, s. split; [done | by apply starts_number_value].
Qed.

Lemma digit_not_sign c : digit_of_char c <> None -> (c =? "-")%char = false.
Proof. ascii_cases c; vm_compute; congruence. Qed.

Lemma stops_not_dot c r : stops (String c r) = true -> (c =? ".")%char = false.
Proof.
  simpl. destruct (digit_of_char c); [done|].
  by destruct (c =? ".")%char.
Qed.

(** A printed integer is read back, up to where the rest starts. *)
Lemma parse_number_int (z : Z) (rest : string) :
  stops rest = true ->
  parse_number (print_int z ++ rest) = Some (VInt z, rest).
Proof.
  intros Hrest. unfold parse_number, print_int.
  rewrite <- (DecimalZ.of_to z) at 2.
  destruct (to_int_digits z) as (u & Hu & [-> | ->]); simpl NilEmpty.string_of_int.
  - destruct (print_uint_head u Hu) as (c & s & Heq & Hc).
    rewrite Heq. simpl. rewrite (digit_not_sign c Hc).
    change (String c (s ++ rest)) with (String c s ++ rest). rewrite <- Heq.
    rewrite read_uint_print by by apply stops_no_digit.
    destruct u; [done|..];
      (destruct rest as [|c' r]; [done|]; by rewrite (stops_not_dot c' r)).
  - simpl. rewrite read_uint_print by by apply stops_no_digit.
    destruct u; [done|..];
      (destruct rest as [|c' r]; [done|]; by rewrite (stops_not_dot c' r)).
Qed.

(** So is a printed float. *)
Lemma parse_number_float (z : Z) (rest : string) :
  stops rest = true ->
  parse_number (print_float z ++ rest) = Some (VFloat z, rest).
Proof.
  intros Hrest. unfold parse_number, print_float, print_int.
  rewrite append_assoc.
  rewrite <- (DecimalZ.of_to z) at 2.
  assert (Hfrac : read_uint ("0" ++ rest) = (D0 Nil, rest)).
  { apply (read_uint_print (D0 Nil)). by apply stops_no_digit. }
  destruct (to_int_digits z) as (u & Hu & [-> | ->]); simpl NilEmpty.string_of_int.
  - destruct (print_uint_head u Hu) as (c & s & Heq & Hc).
    rewrite Heq. simpl. rewrite (digit_not_sign c Hc).
    change (String c (s ++ String "." (String "0" rest)))
      with (String c s ++ (".0" ++ rest)). rewrite <- Heq.
    rewrite read_uint_print by done. simpl in Hfrac.
    destruct u; [done|..]; simpl; by rewrite Hfrac.
  - simpl. change (String "." (String "0" rest)) with (".0" ++ rest).
    rewrite read_uint_print by done. simpl in Hfrac.
    destruct u; [done|..]; simpl; by rewrite Hfrac.
Qed.

(** *** Strings *)

Lemma parse_string_escape_char (c : ascii) (t : string) :
  parse_string (escape_char c ++ t) =
    match parse_string t with
    | Some (str, rest) => Some (String c str, rest)
    | None => None
    end.
Proof. ascii_cases c; reflexivity. Qed.

Lemma parse_string_escape (s rest : string) :
  parse_string (escape s ++ String dquote rest) = Some (s, rest).
Proof.
  induction s as [|c s IH]; simpl.
  - reflexivity.
  - by rewrite append_assoc, parse_string_escape_char, IH.
Qed.

Lemma quote_app (s rest : string) :
  quote s ++ rest = String dquote (escape s ++ String dquote rest).
Proof. unfold quote. simpl. by rewrite append_assoc. Qed.

(** *** Values *)

Lemma value_ind_nested {float} (P : value float -> Prop) :
  P VNone ->
  (forall b, P (VBool b)) ->
  (forall n, P (VInt n)) ->
  (forall f, P (VFloat f)) ->
  (forall s, P (VStr s)) ->
  (forall l, Forall P l -> P (VList l)) ->
  (forall kvs, Forall (fun kv => P (snd kv)) kvs -> P (VDict kvs)) ->
  forall v, P v.
Proof.
  intros HNone HBool HInt HFloat HStr HList HDict.
  fix IH 1. intros [| b | n | f | s | l | kvs].
  - exact HNone.
  - apply HBool.
  - apply HInt.
  - apply HFloat.
  - apply HStr.
  - apply HList. induction l as [|x l IHl]; constructor; [apply IH | exact IHl].
  - apply HDict. induction kvs as [|[k x] kvs IHkvs]; constructor;
      [apply IH | exact IHkvs].
Qed.

Lemma starts_value_not_close c :
  starts_value c = true -> (c =? "]")%char = false /\ (c =? "}")%char = false.
Proof. ascii_cases c; vm_compute; intuition congruence. Qed.

Lemma dumps_head (v : jval) : head_ok (dumps v).
Proof.
  destruct v as [| [] | n | f | s | l | kvs]; simpl;
    try (by eexists _, _).
  - apply print_int_head.
  - apply head_ok_app, print_int_head.
Qed.

Lemma quote_head (k t : string) : head_ok (quote k ++ t).
Proof. by eexists _, _. Qed.

Lemma join_cons (x : string) (xs : list string) (t : string) :
  join (x :: xs) ++ t =
    x ++ match xs with [] => t | _ => ", " ++ (join xs ++ t) end.
Proof. destruct xs; simpl; [done|]. by rewrite !append_assoc. Qed.

Lemma items_text_cons (v : jval) (l : list jval) (rest : string) :
  items_text (v :: l) rest =
    dumps v ++ match l with
               | [] => "]" ++ rest
               | _ => ", " ++ items_text l rest
               end.
Proof. unfold items_text. simpl map. rewrite join_cons. by destruct l. Qed.

Lemma items_text_head (v : jval) (l : list jval) (rest : string) :
  head_ok (items_text (v :: l) rest).
Proof. rewrite items_text_cons. apply head_ok_app, dumps_head. Qed.

Lemma parse_items_S (fuel : nat) (s : string) :
  parse_items (S fuel) s =
    match parse_value fuel s with
    | Some (v, rest) =>
        match skip_ws rest with
        | String c r =>
            if (c =? ",")%char then
              match parse_items fuel (skip_ws r) with
              | Some (vs, r') => Some (v :: vs, r')
              | None => None
              end
            else if (c =? "]")%char then Some ([v], r)
            else None
        | EmptyString => None
        end
    | None => None
    end.
Proof. reflexivity. Qed.

Lemma parse_items_text (l : list jval) :
  forall v, Forall reads_back (v :: l) -> forallb wf (v :: l) = true ->
  forall fuel rest,
    list_sum (map (fun x => S (rounds x)) (v :: l)) <= fuel ->
    parse_items fuel (items_text (v :: l) rest) = Some (v :: l, rest).
Proof.
  induction l as [|v' l IHl]; intros v Hall Hwf fuel rest Hfuel;
    apply Forall_cons_1 in Hall as [Hv Hl];
    apply andb_true_iff in Hwf as [Hwfv Hwfl];
    (destruct fuel as [|fuel]; [simpl in Hfuel; lia|]);
    rewrite items_text_cons, parse_items_S.
  - rewrite (Hv Hwfv) by (simpl in *; done || lia). reflexivity.
  - rewrite (Hv Hwfv) by (simpl in *; done || lia).
    specialize (IHl v' Hl Hwfl fuel rest ltac:(simpl in *; lia)).
    pose proof (skip_ws_head _ (items_text_head v' l rest)) as Hnext.
    generalize dependent (items_text (v' :: l) rest). intros text IHl Hnext.
    simpl. by rewrite Hnext, IHl.
Qed.

Lemma members_text_cons (k : string) (x : jval) (kvs : list (string * jval))
    (rest : string) :
  members_text ((k, x) :: kvs) rest =
    String dquote (escape k ++ String dquote (": " ++ dumps x ++
      match kvs with
      | [] => "}" ++ rest
      | _ => ", " ++ members_text kvs rest
      end)).
Proof.
  unfold members_text. simpl map. rewrite join_cons.
  unfold member_text at 1, quote. simpl.
  rewrite !append_assoc. simpl. by destruct kvs.
Qed.

Lemma members_text_head (kv : string * jval) (kvs : list (string * jval))
    (rest : string) :
  head_ok (members_text (kv :: kvs) rest).
Proof. destruct kv as [k x]. rewrite members_text_cons. by eexists _, _. Qed.

Lemma parse_members_S (fuel : nat) (c : ascii) (r0 : string) :
  parse_members (S fuel) (String c r0) =
    if (c =? dquote)%char then
      match parse_string r0 with
      | Some (k, r1) =>
          match skip_ws r1 with
          | String c1 r2 =>
              if (c1 =? ":")%char then
                match parse_value fuel (skip_ws r2) with
                | Some (v, r3) =>
                    match skip_ws r3 with
                    | String c3 r4 =>
                        if (c3 =? ",")%char then
                          match parse_members fuel (skip_ws r4) with
                          | Some (kvs, r5) => Some ((k, v) :: kvs, r5)
                          | None => None
                          end
                        else if (c3 =? "}")%char then Some ([(k, v)], r4)
                        else None
                    | EmptyString => None
                    end
                | None => None
                end
              else None
          | EmptyString => None
          end
      | None => None
      end
    else None.
Proof. reflexivity. Qed.

Lemma parse_members_text (kvs : list (string * jval)) :
  forall kv,
  Forall (fun p => reads_back (snd p)) (kv :: kvs) ->
  forallb (fun p => match p with (_, x) => wf x end) (kv :: kvs) = true ->
  forall fuel rest,
    list_sum (map (fun p => match p with (_, x) => S (rounds x) end) (kv :: kvs))
      <= fuel ->
    parse_members fuel (members_text (kv :: kvs) rest) = Some (kv :: kvs, rest).
Proof.
  induction kvs as [|kv' kvs IH]; intros [k x] Hall Hwf fuel rest Hfuel;
    apply Forall_cons_1 in Hall as [Hx Hl]; simpl in Hx;
    apply andb_true_iff in Hwf as [Hwfx Hwfl];
    (destruct fuel as [|fuel]; [simpl in Hfuel; lia|]);
    rewrite members_text_cons, parse_members_S, parse_string_escape.
  - pose proof (skip_ws_head _ (head_ok_app _ ("}" ++ rest) (dumps_head x))) as Hskip.
    pose proof (Hx Hwfx fuel ("}" ++ rest) ltac:(simpl in *; lia) eq_refl) as Hread.
    generalize dependent (dumps x ++ "}" ++ rest). intros text Hskip Hread.
    simpl. by rewrite Hskip, Hread.
  - specialize (IH kv' Hl Hwfl fuel rest ltac:(simpl in *; lia)).
    pose proof (skip_ws_head _ (members_text_head kv' kvs rest)) as Hnext.
    generalize dependent (members_text (kv' :: kvs) rest). intros next IH Hnext.
    pose proof (skip_ws_head _ (head_ok_app _ (", " ++ next) (dumps_head x))) as Hskip.
    pose proof (Hx Hwfx fuel (", " ++ next) ltac:(simpl in *; lia) eq_refl) as Hread.
    generalize dependent (dumps x ++ ", " ++ next). intros text Hskip Hread.
    simpl. rewrite Hskip, Hread. simpl. by rewrite Hnext, IH.
Qed.

(** A dictionary without a repeated key is built back entry by entry. *)
Lemma dict_set_fresh (acc : list (string * jval)) (k : string) (x : jval) :
  existsb (fun p => String.eqb (fst p) k) acc = false ->
  dict_set acc k x = (acc ++ [(k, x)])%list.
Proof.
  induction acc as [|[k' x'] acc IH]; simpl; [done|].
  intros [Hk Hacc]%orb_false_iff. rewrite Hk. by rewrite IH.
Qed.

Lemma build_dict_from (kvs acc : list (string * jval)) :
  nodup_keys kvs = true ->
  (forall k, existsb (fun p => String.eqb (fst p) k) kvs = true ->
             existsb (fun p => String.eqb (fst p) k) acc = false) ->
  fold_left (fun d kv => dict_set d (fst kv) (snd kv)) kvs acc = (acc ++ kvs)%list.
Proof.
  revert acc. induction kvs as [|[k x] kvs IH]; intros acc Hnd Hdisj; simpl.
  - by rewrite List.app_nil_r.
  - simpl in Hnd. apply andb_true_iff in Hnd as [Hk Hnd].
    apply negb_true_iff in Hk.
    rewrite dict_set_fresh by (apply Hdisj; simpl; by rewrite String.eqb_refl).
    rewrite IH, <- List.app_assoc; [done | done |].
    intros k' Hk'. rewrite existsb_app. apply orb_false_iff. split.
    + apply Hdisj. simpl. by rewrite Hk', orb_true_r.
    + simpl. rewrite orb_false_r. destruct (String.eqb_spec k k') as [->|]; [|done].
      congruence.
Qed.

Lemma build_dict_nodup (kvs : list (string * jval)) :
  nodup_keys kvs = true -> build_dict kvs = kvs.
Proof. intros Hnd. unfold build_dict. by rewrite build_dict_from. Qed.

Lemma dumps_list_app (l : list jval) (rest : string) :
  dumps (VList l) ++ rest = String "[" (items_text l rest).
Proof. unfold items_text. simpl. by rewrite append_assoc. Qed.

Lemma dumps_dict_app (kvs : list (string * jval)) (rest : string) :
  dumps (VDict kvs) ++ rest = String "{" (members_text kvs rest).
Proof. unfold members_text. simpl. by rewrite append_assoc. Qed.

Lemma parse_value_number (fuel : nat) (c : ascii) (t : string) :
  starts_number c = true ->
  parse_value (S fuel) (String c t) = parse_number (String c t).
Proof. ascii_cases c; intros H; try (by vm_compute in H); reflexivity. Qed.

(** Every well-formed value is read back from its text, whatever follows
    it, provided a number is not followed by more of a number. *)
Lemma parse_value_dumps (v : jval) : reads_back v.
Proof.
  induction v as [| b | n | f | s | l IHl | kvs IHkvs] using value_ind_nested;
    intros Hwf fuel rest Hfuel Hrest;
    (destruct fuel as [|fuel]; [simpl in Hfuel; lia|]).
  - reflexivity.
  - by destruct b.
  - destruct (print_int_number_head n) as (c & s & Heq & Hc).
    simpl dumps. rewrite <- (parse_number_int n rest Hrest), Heq.
    by apply parse_value_number.
  - destruct (print_int_number_head f) as (c & s & Heq & Hc).
    simpl dumps. rewrite <- (parse_number_float f rest Hrest).
    unfold print_float. rewrite Heq.
    by apply parse_value_number.
  - simpl dumps. rewrite quote_app. simpl. by rewrite parse_string_escape.
  - destruct l as [|v l].
    + reflexivity.
    + simpl in Hfuel. apply le_S_n in Hfuel.
      pose proof (parse_items_text l v IHl Hwf fuel rest Hfuel) as Hitems.
      destruct (items_text_head v l rest) as (c & r & Hhead & Hc).
      rewrite dumps_list_app, Hhead in *. simpl.
      rewrite (starts_value_not_ws c Hc).
      destruct (starts_value_not_close c Hc) as [-> _].
      by rewrite Hitems.
  - destruct kvs as [|kv kvs].
    + reflexivity.
    + simpl in Hfuel. apply le_S_n in Hfuel.
      simpl in Hwf. apply andb_true_iff in Hwf as [Hnd Hwf].
      pose proof (parse_members_text kvs kv IHkvs Hwf fuel rest Hfuel) as Hmem.
      destruct (members_text_head kv kvs rest) as (c & r & Hhead & Hc).
      rewrite dumps_dict_app, Hhead in *. simpl.
      rewrite (starts_value_not_ws c Hc).
      destruct (starts_value_not_close c Hc) as [_ ->].
      rewrite Hmem. by rewrite build_dict_nodup.
Qed.

(** *** The rounds the text affords *)

Lemma head_ok_length (s : string) : head_ok s -> 1 <= String.length s.
Proof. intros (c & s' & -> & _). simpl. lia. Qed.

Lemma join_length (f : jval -> nat) (texts : jval -> string) (l : list jval) :
  Forall (fun x => f x <= String.length (texts x)) l ->
  list_sum (map (fun x => S (f x)) l) <= String.length (join (map texts l)) + 1.
Proof.
  induction 1 as [|x l Hx Hl IH]; simpl; [lia|].
  destruct l as [|y l]; simpl in *; [lia|].
  rewrite !length_append. simpl. lia.
Qed.

Lemma members_length (kvs : list (string * jval)) :
  Forall (fun kv => rounds (snd kv) <= String.length (dumps (snd kv))) kvs ->
  list_sum (map (fun kv => match kv with (_, x) => S (rounds x) end) kvs)
    <= String.length (join (map member_text kvs)) + 1.
Proof.
  induction 1 as [|[k x] l Hx Hl IH]; simpl; [lia|].
  assert (rounds x <= String.length (quote k ++ ": " ++ dumps x)).
  { rewrite !length_append. simpl in *. lia. }
  destruct l as [|y l]; simpl in *; [lia|].
  rewrite !length_append in *. simpl in *. lia.
Qed.

Lemma rounds_le_length (v : jval) : rounds v <= String.length (dumps v).
Proof.
  induction v as [| b | n | f | s | l IHl | kvs IHkvs] using value_ind_nested;
    try (apply head_ok_length, dumps_head).
  - change (dumps (VList l)) with ("[" ++ join (map dumps l) ++ "]").
    rewrite !length_append.
    pose proof (join_length rounds dumps l IHl). simpl. lia.
  - change (dumps (VDict kvs)) with ("{" ++ join (map member_text kvs) ++ "}").
    rewrite !length_append.
    pose proof (members_length kvs IHkvs). simpl. lia.
Qed.

(** *** The law *)

Theorem loads_dumps : json_roundtrip dumps loads.
Proof.
  intros v Hwf. unfold loads.
  rewrite (skip_ws_head _ (dumps_head v)).
  rewrite <- (append_nil_r (dumps v)) at 2.
  rewrite (parse_value_dumps v Hwf); [done | | done].
  pose proof (rounds_le_length v). lia.
Qed.

End RefJsonFacts.

(** ** The scenario of the spec *)

(** The statements above at the ["PathsRequest"] message of the spec's
    scenario, with the reference codec and the registry that knows this
    variant only. *)
Section ScenarioFacts.
Import Scenario.

(** The code on the scenario's inputs. *)

Example serialize_full_request :
  serialize_full RefJson.dumps address_of now request "S" = Ok wire.
Proof. reflexivity. Qed.

Example deserialize_wire :
  deserialize RefJson.loads (deserializer.deserialize registry) (VStr wire) =
    Ok (set_header request
          (VDict [("type", VStr "PathsRequest"); ("timestamp", VFloat now);
                  ("sender", VStr (address_of "S"))])).
Proof. vm_compute. reflexivity. Qed.

Example deserialize_ping :
  deserialize RefJson.loads (deserializer.deserialize registry)
    (VStr (RefJson.dumps (VDict ping_envelope))) = Err (UnknownTypeError "Ping").
Proof. vm_compute. reflexivity. Qed.

Example deserialize_unsigned :
  deserialize RefJson.loads (deserializer.deserialize registry)
    (VDict unsigned_envelope) = Err (SchemaError "signature").
Proof. reflexivity. Qed.

(** A message of the base class has no discriminant to assemble with, and
    one with a discriminant still has no body. *)
Example serialize_full_base :
  serialize_full RefJson.dumps address_of now __init__ "S" = Err AssertionError.
Proof. reflexivity. Qed.

Example serialize_full_abstract :
  serialize_full RefJson.dumps address_of now
    {| _type := VStr "Message"; header := None;
       self_serialize_data := serialize_data; self_sign_data := sign_data |} "S" =
    Err NotImplementedError.
Proof. reflexivity. Qed.

Example sign_data_length : String.length (sign_data "S" msg_data) = 33.
Proof. reflexivity. Qed.

(** The statements with a premise, at these inputs. *)

Lemma tampered_data_verifies_witness :
  serialize_full RefJson.dumps address_of now request "S" = Ok wire /\
  exists signature d,
    wire = RefJson.dumps (envelope signature d) /\
    signature = self_sign_data request "S" d /\
    forall tampered, verify signature tampered = true.
Proof.
  pose proof serialize_full_request as Hser.
  split; [exact Hser|].
  apply (tampered_data_verifies RefJson.dumps address_of verify now request "S" wire).
  - reflexivity.
  - intros key data. reflexivity.
  - exact Hser.
Defined.

Lemma type_setter_fresh_witness :
  _type (__init__ (float:=Z)) = VNone /\
  type_setter (float:=Z) __init__ (VStr "PathsRequest") = Err AssertionError.
Proof.
  split; [reflexivity|].
  apply (type_setter_fresh __init__ (VStr "PathsRequest")). reflexivity.
Defined.

Lemma deserialize_serialize_full_witness :
  exists w m hdr,
    serialize_full RefJson.dumps address_of now request "S" = Ok w /\
    deserialize RefJson.loads (deserializer.deserialize registry) (VStr w) = Ok m /\
    self_serialize_data m =
      Ok (VDict [("source", VStr "0xAAAA"); ("target", VStr "0xBBBB")]) /\
    header m = Some hdr /\
    getitem hdr "type" = Ok (VStr "PathsRequest").
Proof.
  apply (deserialize_serialize_full RefJson.dumps RefJson.loads address_of
           registry now request "S" "PathsRequest"
           (VDict [("source", VStr "0xAAAA"); ("target", VStr "0xBBBB")])
           decode_PathsRequest request).
  - exact RefJsonFacts.loads_dumps.
  - reflexivity.
  - reflexivity.
  - reflexivity.
  - vm_compute. reflexivity.
  - reflexivity.
  - reflexivity.
Defined.

Lemma deserialize_schema_error_witness :
  malformed unsigned_envelope /\
  exists what,
    deserialize RefJson.loads (deserializer.deserialize registry)
      (VDict unsigned_envelope) = Err (SchemaError what).
Proof.
  assert (Hbad : malformed unsigned_envelope) by (left; reflexivity).
  split; [exact Hbad|].
  apply (deserialize_schema_error RefJson.loads
           (deserializer.deserialize registry)
           (VDict unsigned_envelope) unsigned_envelope).
  - left. reflexivity.
  - exact Hbad.
Defined.

Lemma deserialize_unknown_type_witness :
  registry !! "Ping" = None /\
  deserialize RefJson.loads (deserializer.deserialize registry)
    (VDict ping_envelope) = Err (UnknownTypeError "Ping").
Proof.
  assert (Hmiss : registry !! "Ping" = None) by (vm_compute; reflexivity).
  split; [exact Hmiss|].
  apply (deserialize_unknown_type RefJson.loads registry (VDict ping_envelope)
           ping_envelope (RefJson.dumps ping) ping
           (VDict [("type", VStr "Ping"); ("timestamp", VFloat now);
                   ("sender", VStr (address_of "S"))])
           "Ping").
  - left. reflexivity.
  - reflexivity.
  - reflexivity.
  - apply RefJsonFacts.loads_dumps. reflexivity.
  - reflexivity.
  - reflexivity.
  - exact Hmiss.
Defined.

Lemma serialize_full_contents_witness :
  exists w outer d obj hdr,
    serialize_full RefJson.dumps address_of now request "S" = Ok w /\
    RefJson.loads w = Ok outer /\
    getitem outer "data" = Ok (VStr d) /\
    RefJson.loads d = Ok obj /\
    getitem obj "header" = Ok hdr /\
    getitem hdr "type" = Ok (VStr "PathsRequest") /\
    getitem hdr "sender" = Ok (VStr (address_of "S")) /\
    getitem obj "body" =
      Ok (VDict [("source", VStr "0xAAAA"); ("target", VStr "0xBBBB")]).
Proof.
  apply (serialize_full_contents RefJson.dumps RefJson.loads address_of
           now request "S" "PathsRequest"
           (VDict [("source", VStr "0xAAAA"); ("target", VStr "0xBBBB")])).
  - exact RefJsonFacts.loads_dumps.
  - reflexivity.
  - reflexivity.
  - reflexivity.
Defined.

Lemma serialize_full_signs_stored_data_witness :
  serialize_full RefJson.dumps address_of now request "S" = Ok wire /\
  exists d outer,
    wire = RefJson.dumps (envelope (self_sign_data request "S" d) d) /\
    RefJson.loads wire = Ok outer /\
    getitem outer "data" = Ok (VStr d) /\
    getitem outer "signature" = Ok (VStr (self_sign_data request "S" d)).
Proof.
  pose proof serialize_full_request as Hser.
  split; [exact Hser|].
  apply (serialize_full_signs_stored_data RefJson.dumps RefJson.loads address_of
           now request "S" wire).
  - exact RefJsonFacts.loads_dumps.
  - exact Hser.
Defined.

Lemma deserialize_header_verbatim_witness :
  exists kvs s json_data cls hdr,
    outer_object RefJson.loads (VStr wire) kvs /\
    dict_get kvs "data" = Some (VStr s) /\
    RefJson.loads s = Ok json_data /\
    getitem json_data "header" = Ok hdr /\
    deserializer.deserialize registry json_data = Ok cls /\
    header (set_header request
              (VDict [("type", VStr "PathsRequest"); ("timestamp", VFloat now);
                      ("sender", VStr (address_of "S"))])) = Some hdr /\
    set_header request
      (VDict [("type", VStr "PathsRequest"); ("timestamp", VFloat now);
              ("sender", VStr (address_of "S"))]) = set_header cls hdr.
Proof.
  apply (deserialize_header_verbatim RefJson.loads
           (deserializer.deserialize registry) (VStr wire)).
  exact deserialize_wire.
Defined.

End ScenarioFacts.

(** * Further properties of the envelope code *)

Section EnvelopeMore.
Context {float : Type}.
Variable json_dumps : value float -> string.
Variable json_loads : string -> result (value float).
Variable privkey_to_addr : string -> string.

Implicit Types (self cls : Message float) (body hdr : value float).
Implicit Types (decode : value float -> result (Message float)).
Implicit Types (kvs : list (string * value float)).

Abbreviation serialize' := (serialize_full json_dumps privkey_to_addr).
Abbreviation disassemble' := (deserialize json_loads).

(** *** When [serialize_full] raises *)

(** X1.  With a discriminant that is not a string, [serialize_full] fails
    the assertion of [assemble_message], whatever [serialize_data] would
    return or raise: the body is not asked for. *)
Theorem serialize_full_assertion now self private_key :
  is_str (_type self) = false ->
  serialize' now self private_key = Err AssertionError.
Proof.
  intros H. unfold serialize_full, assemble_message, type. by rewrite H.
Qed.

(** X2.  With a string discriminant, what [serialize_data] raises is what
    [serialize_full] raises. *)
Theorem serialize_full_body_error now self private_key e :
  is_str (_type self) = true ->
  self_serialize_data self = Err e ->
  serialize' now self private_key = Err e.
Proof.
  intros Ht Hb. unfold serialize_full, assemble_message, type.
  by rewrite Ht, Hb.
Qed.

(** *** What [serialize_full] writes *)

(** X3.  The string stored under [data] reads back as the object with the
    two entries [header] and [body] and nothing else, the header holding
    [type], [timestamp] and [sender] and nothing else, and the timestamp is
    the reading of the clock. *)
Theorem serialize_full_signed_object now self private_key tag body :
  json_roundtrip json_dumps json_loads ->
  _type self = VStr tag ->
  self_serialize_data self = Ok body ->
  wf body = true ->
  exists wire outer msg_data,
    serialize' now self private_key = Ok wire /\
    json_loads wire = Ok outer /\
    getitem outer "data" = Ok (VStr msg_data) /\
    json_loads msg_data =
      Ok (VDict [("header", VDict [("type", VStr tag);
                                   ("timestamp", VFloat now);
                                   ("sender", VStr (privkey_to_addr private_key))]);
                 ("body", body)]).
Proof.
  intros Hlaw Ht Hb Hwf.
  pose proof (serialize_full_ok json_dumps privkey_to_addr
                now self private_key tag body Ht Hb) as Hser.
  simpl in Hser.
  eexists _, _, _. split; [exact Hser|].
  split; [apply Hlaw, wf_envelope|]. split; [reflexivity|].
  by apply Hlaw, wf_signed_object.
Qed.

(** *** What [Message.deserialize] looks at *)

(** X4.  [Message.deserialize] never reads the signature: of two outer
    objects that pass the schema and differ in the signature only, one is
    accepted when the other is, with the same result. *)
Theorem deserialize_ignores_signature decode kvs sig :
  jsonschema.validate (VDict kvs) json_schema.ENVELOPE_SCHEMA = Ok tt ->
  jsonschema.validate (VDict (dict_set kvs "signature" (VStr sig)))
    json_schema.ENVELOPE_SCHEMA = Ok tt ->
  disassemble' decode (VDict (dict_set kvs "signature" (VStr sig))) =
  disassemble' decode (VDict kvs).
Proof.
  intros Hval Hval'. unfold deserialize. simpl.
  rewrite Hval, Hval'. simpl.
  by rewrite dict_get_set_ne.
Qed.

(** X5.  A wire string and the value it parses to are the same input to
    [Message.deserialize], unless that value is itself a string. *)
Theorem deserialize_wire_or_parsed decode s v :
  json_loads s = Ok v ->
  is_str v = false ->
  disassemble' decode (VStr s) = disassemble' decode v.
Proof.
  intros Hs Hv. unfold deserialize. rewrite Hs. by destruct v.
Qed.

(** X6.  An outer value that is not a dictionary is never accepted: not a
    number, a list or [None], and not a string inside the wire string,
    which is not parsed a second time. *)
Theorem deserialize_not_dict decode data v :
  outer_value json_loads data v ->
  is_dict v = false ->
  is_ok (disassemble' decode data) = false.
Proof.
  intros Hout Hv. unfold deserialize.
  assert (Hrest : forall r : result unit,
            is_ok (_ ← r; inner ← getitem v "data";
                   json_data ← (match inner with
                                | VStr s => json_loads s
                                | _ => Err TypeError
                                end);
                   cls ← decode json_data;
                   hdr ← getitem json_data "header";
                   Ok (set_header cls hdr)) = false).
  { intros [[]|e]; [|done]. by destruct v. }
  destruct Hout as [[Hd ->] | (s & -> & ->)].
  - destruct data; try done; apply Hrest.
  - apply Hrest.
Qed.

(** X7.  When the inner [data] string of a valid outer object is not JSON,
    [Message.deserialize] raises what [json.loads] raises, whatever the
    deserializer: it is not reached. *)
Theorem deserialize_inner_error decode data kvs s e :
  outer_object json_loads data kvs ->
  jsonschema.validate (VDict kvs) json_schema.ENVELOPE_SCHEMA = Ok tt ->
  dict_get kvs "data" = Some (VStr s) ->
  json_loads s = Err e ->
  disassemble' decode data = Err e.
Proof.
  intros Hout Hval Hd Hin.
  rewrite (deserialize_valid json_loads decode data kvs s Hout Hval Hd).
  by rewrite Hin.
Qed.

(** *** Received messages and the discriminant on the way out *)

Lemma serialize_full_set_header now cls hdr private_key :
  serialize' now (set_header cls hdr) private_key = serialize' now cls private_key.
Proof. reflexivity. Qed.


(** X9.  An assignment of a value that is not a string, once it has gone
    through the setter of [type], leaves a message that no later assignment
    can repair and that [serialize_full] refuses. *)
Theorem type_setter_locks self value m :
  type_setter self value = Ok m ->
  is_str value = false ->
  (forall value', type_setter m value' = Err AssertionError) /\
  (forall now private_key, serialize' now m private_key = Err AssertionError).
Proof.
  unfold type_setter. destruct (is_str (_type self)); simpl; [|done].
  intros [= <-] Hv. split.
  - intros value'. simpl. by rewrite Hv.
  - intros now private_key.
    unfold serialize_full, assemble_message, type. simpl. by rewrite Hv.
Qed.

(** X10.  A string that has gone through the setter of [type] is the
    [type] the next [serialize_full] writes into the header, around the
    same body and under the same signing method. *)
Theorem serialize_full_after_type_setter self tag m now private_key body :
  type_setter self (VStr tag) = Ok m ->
  self_serialize_data self = Ok body ->
  type m = VStr tag /\
  let msg_data :=
    json_dumps (signed_object tag now (privkey_to_addr private_key) body) in
  serialize' now m private_key =
    Ok (json_dumps (envelope (self_sign_data self private_key msg_data) msg_data)).
Proof.
  unfold type_setter. destruct (is_str (_type self)); simpl; [|done].
  intros [= <-] Hb. split; [reflexivity|].
  apply (serialize_full_ok json_dumps privkey_to_addr now
           {| _type := VStr tag; header := header self;
              self_serialize_data := self_serialize_data self;
              self_sign_data := self_sign_data self |} private_key tag body);
    [reflexivity | exact Hb].
Qed.

End EnvelopeMore.

(** * Properties of the console script *)

Section CliFacts.
Import cli.
Context {float : Type}.
Variable float_sub : float -> Z -> float.
Variable float_gt : float -> Z -> bool.
Variable REGISTRY : string.
Variable POLL : value float.
Variable w : world float.

Implicit Types (s : frame float) (e : exn).

Abbreviation defaults :=
  (get_default_registry_and_start_block float_sub float_gt REGISTRY w).
Abbreviation script := (main float_sub float_gt REGISTRY POLL w).

Ltac unfold_script :=
  unfold run, main, get_default_registry_and_start_block, with_open,
    try_finally, try_except, emit, extern, sys_exit, raise, lift,
    set_service, set_api, get_service, get_api, mbind, M_bind, bind, ret;
  simpl.

(** Case analysis on what the calls outside the script do. *)
Ltac outcomes :=
  repeat (simpl in *;
    match goal with
    | H : ?o = _ |- context [match ?o with Return _ => _ | Raise _ => _ end] =>
        rewrite H
    | |- context [match ?o with Return _ => _ | Raise _ => _ end] =>
        is_var o; destruct o
    | |- context [match ?o with Return _ => _ | Raise _ => _ end] =>
        lazymatch o with
        | context [match _ with _ => _ end] => fail
        | _ => destruct o eqn:?
        end
    | |- context [if ?b then _ else _] =>
        lazymatch b with
        | context [match _ with _ => _ end] => fail
        | _ => destruct b eqn:?
        end
    end).

(** *** The default registry *)

Lemma defaults_found
    net_version contracts_version contract_data contracts info address bn s :
  w_get_contracts_deployed w net_version contracts_version = Return contract_data ->
  getitem contract_data "contracts" = Ok contracts ->
  getitem contracts REGISTRY = Ok info ->
  getitem info "address" = Ok address ->
  getitem info "block_number" = Ok (VInt bn) ->
  defaults net_version contracts_version s =
    ({| trace := trace s ++ [get_contracts_deployed net_version contracts_version];
        service := service s; api := api s |},
     Return (address, VInt (Z.max 0 (bn - 100)))).
Proof.
  intros Hw Hc Hi Ha Hb.
  unfold_script. rewrite Hw. simpl. rewrite Hc. simpl. rewrite Hi. simpl.
  rewrite Ha. simpl. rewrite Hb. reflexivity.
Qed.


(** X12.  When [get_contracts_deployed] raises a [ValueError], the error is
    logged and the script exits with status 1. *)
Theorem default_registry_not_deployed net_version contracts_version e s :
  w_get_contracts_deployed w net_version contracts_version = Raise e ->
  is_ValueError e = true ->
  defaults net_version contracts_version s =
    ({| trace := trace s ++
                 [get_contracts_deployed net_version contracts_version;
                  log "error" "No deployed contracts were found at the default registry"];
        service := service s; api := api s |},
     Raise (SystemExit 1)).
Proof.
  intros Hw He. unfold_script. rewrite Hw, He. simpl.
  by rewrite <- app_assoc.
Qed.

(** X13.  Deployment data without the registry contract is not such a
    case: the [KeyError] of the lookup leaves the function as it is, with
    nothing logged. *)
Theorem default_registry_missing
    net_version contracts_version contract_data kvs s :
  w_get_contracts_deployed w net_version contracts_version = Return contract_data ->
  getitem contract_data "contracts" = Ok (VDict kvs) ->
  dict_get kvs REGISTRY = None ->
  defaults net_version contracts_version s =
    ({| trace := trace s ++ [get_contracts_deployed net_version contracts_version];
        service := service s; api := api s |},
     Raise (Builtin (KeyError REGISTRY))).
Proof.
  intros Hw Hc Hk. unfold_script. rewrite Hw. simpl. rewrite Hc. simpl.
  by rewrite Hk.
Qed.

(** *** Start-up *)

(** X14.  When the key file cannot be decoded (a [ValueError], which a
    wrong password and a file that is not JSON both raise), [main] logs it,
    closes the key store and exits with status 1; the node is not contacted
    and no service is created. *)
Theorem main_bad_keyfile
    keystore_file password eth_rpc registry_address start_block confirmations
    host log_level state_db service_fee e :
  w_open w keystore_file = Return tt ->
  w_decrypt w keystore_file password = Raise e ->
  is_ValueError e = true ->
  run (script keystore_file password eth_rpc registry_address start_block
         confirmations host log_level state_db service_fee) =
    ({| trace :=
          [setup_logging log_level;
           log "info" "Starting Raiden Pathfinding Service";
           log "info" "Using contracts version: 0.3._";
           open_file keystore_file;
           decrypt_keyfile password;
           log "critical"
             "Could not decode keyfile with given password. Please try again.";
           close_file keystore_file];
        service := false; api := false |},
     Raise (SystemExit 1)).
Proof.
  intros Ho Hd He. unfold_script. rewrite Ho. simpl. rewrite Hd, He. reflexivity.
Qed.

(** X15.  When the node cannot be reached, [main] logs it and exits with
    status 1, the key store closed and no service created. *)
Theorem main_no_connection
    keystore_file password eth_rpc registry_address start_block confirmations
    host log_level state_db service_fee key e :
  w_open w keystore_file = Return tt ->
  w_decrypt w keystore_file password = Return key ->
  w_net_version w eth_rpc = Raise e ->
  is_ConnectionError e = true ->
  run (script keystore_file password eth_rpc registry_address start_block
         confirmations host log_level state_db service_fee) =
    ({| trace :=
          [setup_logging log_level;
           log "info" "Starting Raiden Pathfinding Service";
           log "info" "Using contracts version: 0.3._";
           open_file keystore_file;
           decrypt_keyfile password;
           close_file keystore_file;
           log "info" ("Starting Web3 client for node at " ++ eth_rpc);
           web3_net_version eth_rpc;
           log "error"
             "Can not connect to the Ethereum client. Please check that it is running and that your settings are correct."];
        service := false; api := false |},
     Raise (SystemExit 1)).
Proof.
  intros Ho Hd Hn He. unfold_script. rewrite Ho. simpl. rewrite Hd. simpl.
  rewrite Hn, He. reflexivity.
Qed.

(** X16.  Without a registry address the start block given on the command
    line is not used: the run is the same for every value of it. *)
Theorem main_start_block_unused
    keystore_file password eth_rpc start_block start_block' confirmations
    host log_level state_db service_fee :
  run (script keystore_file password eth_rpc VNone start_block
         confirmations host log_level state_db service_fee) =
  run (script keystore_file password eth_rpc VNone start_block'
         confirmations host log_level state_db service_fee).
Proof. reflexivity. Qed.

(** *** The stages of [main] *)

Abbreviation arguments_of registry_address start_block confirmations key
    state_db service_fee :=
  {| cli.registry_address := registry_address;
     sync_start_block := start_block;
     required_confirmations := confirmations;
     private_key := key;
     poll_interval := POLL;
     db_filename := state_db;
     cli.service_fee := service_fee |}.

Lemma bind_assoc {A B C} (m : M float A) (f : A -> M float B)
    (g : B -> M float C) s :
  bind (bind m f) g s = bind m (fun a => bind (f a) g) s.
Proof. unfold bind. by destruct (m s) as [s' [a|e]]. Qed.

Lemma bind_ext {A B} (m : M float A) (f g : A -> M float B) s :
  (forall a s', f a s' = g a s') -> bind m f s = bind m g s.
Proof. intros H. unfold bind. destruct (m s) as [s' [a|e]]; [apply H | done]. Qed.

Ltac reassociate :=
  repeat first
    [ rewrite bind_assoc
    | apply bind_ext; intros ? ?
    | reflexivity ].

Lemma main_stages
    keystore_file password eth_rpc registry_address start_block confirmations
    host log_level state_db service_fee s :
  script keystore_file password eth_rpc registry_address start_block
    confirmations host log_level state_db service_fee s =
  bind (startup w keystore_file password eth_rpc log_level)
    (fun '(key, net_version) =>
       bind (choose_registry float_sub float_gt REGISTRY w registry_address
               start_block net_version)
         (fun '(registry, start) =>
            bind (serve w (arguments_of registry start confirmations key
                             state_db service_fee) host)
              (fun _ => ret 0%Z))) s.
Proof.
  unfold main, startup, serve, choose_registry, mbind, M_bind.
  symmetry. reassociate.
Qed.

(** What a stage adds to the trace. *)
Ltac added_events :=
  eexists; split;
    [ simpl; rewrite <- ?app_assoc; simpl; reflexivity
    | simpl; repeat constructor ].

Lemma startup_frame keystore_file password eth_rpc log_level s :
  exists l,
    fst (startup w keystore_file password eth_rpc log_level s) =
      {| trace := trace s ++ l; service := service s; api := api s |} /\
    forallb startup_event l = true.
Proof.
  unfold startup. unfold_script. destruct s as [t sv ap]; simpl.
  outcomes; added_events.
Qed.

Lemma choose_registry_frame registry_address start_block net_version s :
  exists l,
    fst (choose_registry float_sub float_gt REGISTRY w registry_address
           start_block net_version s) =
      {| trace := trace s ++ l; service := service s; api := api s |} /\
    forallb registry_event l = true.
Proof.
  assert (Hdef : exists l,
    fst (defaults net_version "0.3._" s) =
      {| trace := trace s ++ l; service := service s; api := api s |} /\
    forallb registry_event l = true).
  { unfold_script. destruct s as [t sv ap]; simpl.
    destruct (w_get_contracts_deployed w net_version "0.3._") as [d|e]; simpl.
    - repeat match goal with
             | |- context [match ?r with Ok _ => _ | Err _ => _ end] =>
                 destruct r as [?|[]]; simpl
             end; added_events.
    - destruct (is_ValueError e); added_events. }
  unfold choose_registry.
  destruct registry_address; try exact Hdef;
    (exists []; destruct s; simpl; by rewrite app_nil_r).
Qed.

Lemma choose_registry_given registry_address start_block net_version s :
  registry_address <> VNone ->
  choose_registry float_sub float_gt REGISTRY w registry_address start_block
    net_version s = (s, Return (registry_address, start_block)).
Proof. by destruct registry_address. Qed.

Lemma serve_frame args host s :
  exists l,
    trace (fst (serve w args host s)) = (trace s ++ l)%list /\
    Forall (serve_event args host) l.
Proof.
  unfold serve. unfold_script. destruct s as [t sv ap]; simpl.
  outcomes; added_events.
Qed.

Lemma startup_event_in (l : list (event float)) ev :
  forallb startup_event l = true -> In ev l -> startup_event ev = true.
Proof. intros H Hin. by apply (proj1 (forallb_forall _ _) H). Qed.

Lemma registry_event_in (l : list (event float)) ev :
  forallb registry_event l = true -> In ev l -> registry_event ev = true.
Proof. intros H Hin. by apply (proj1 (forallb_forall _ _) H). Qed.

Lemma serve_event_in args host (l : list (event float)) ev :
  Forall (serve_event args host) l -> In ev l -> serve_event args host ev.
Proof. intros H Hin. by apply (proj1 (List.Forall_forall _ _) H). Qed.

(** The run of [main], stage by stage. *)
Lemma main_run
    keystore_file password eth_rpc registry_address start_block confirmations
    host log_level state_db service_fee :
  let init := {| trace := []; service := false; api := false |} in
  let r := run (script keystore_file password eth_rpc registry_address
                  start_block confirmations host log_level state_db
                  service_fee) in
  (exists l1 e,
     forallb startup_event l1 = true /\
     startup w keystore_file password eth_rpc log_level init =
       ({| trace := l1; service := false; api := false |}, Raise e) /\
     r = ({| trace := l1; service := false; api := false |}, Raise e)) \/
  (exists l1 key net_version,
     forallb startup_event l1 = true /\
     startup w keystore_file password eth_rpc log_level init =
       ({| trace := l1; service := false; api := false |},
        Return (key, net_version)) /\
     let s1 := {| trace := l1; service := false; api := false |} in
     let choice := choose_registry float_sub float_gt REGISTRY w
                     registry_address start_block net_version s1 in
     exists l2,
       forallb registry_event l2 = true /\
       fst choice = {| trace := l1 ++ l2; service := false; api := false |} /\
       ((exists e, snd choice = Raise e /\ r = (fst choice, Raise e)) \/
        (exists registry start l3,
           snd choice = Return (registry, start) /\
           let args := arguments_of registry start confirmations key state_db
                         service_fee in
           let served := serve w args host (fst choice) in
           Forall (serve_event args host) l3 /\
           trace (fst served) = ((l1 ++ l2) ++ l3)%list /\
           r = (fst served,
                match snd served with
                | Return _ => Return 0%Z
                | Raise e => Raise e
                end)))).
Proof.
  cbv zeta. unfold run. rewrite main_stages. unfold bind.
  set (init := {| trace := []; service := false; api := false |}).
  destruct (startup_frame keystore_file password eth_rpc log_level init)
    as (l1 & Hf1 & Hl1). simpl in Hf1.
  destruct (startup w keystore_file password eth_rpc log_level init)
    as [s1 [[key net_version]|e]]; simpl in Hf1; subst s1.
  2: { left. by exists l1, e. }
  right. exists l1, key, net_version. split; [done|]. split; [done|].
  set (s1 := {| trace := l1; service := false; api := false |}).
  destruct (choose_registry_frame registry_address start_block net_version s1)
    as (l2 & Hf2 & Hl2). simpl in Hf2.
  exists l2. split; [done|]. split; [done|].
  destruct (choose_registry float_sub float_gt REGISTRY w registry_address
              start_block net_version s1) as [s2 [[registry start]|e]];
    simpl in *; subst s2.
  2: { left. by exists e. }
  right.
  destruct (serve_frame
              (arguments_of registry start confirmations key state_db service_fee)
              host {| trace := l1 ++ l2; service := false; api := false |})
    as (l3 & Hf3 & Hl3). simpl in Hf3.
  exists registry, start, l3. split; [done|]. split; [done|]. split; [done|].
  by destruct (serve w _ host _) as [s3 [[]|e]].
Qed.

(** *** The [try] statement around the service *)

Ltac serve_cases s :=
  unfold serve; unfold_script; destruct s as [t sv ap]; simpl; outcomes.

Ltac added :=
  eexists; split; [simpl; rewrite <- ?app_assoc; simpl; reflexivity|]; simpl.


(** When stopping the API raises, the service is not stopped, and the
    exception is what the statement raises. *)
Lemma serve_api_stop_raises args host s e :
  w_api_stop w = Raise e ->
  exists l,
    trace (fst (serve w args host s)) = (trace s ++ l)%list /\
    (In api_stop l ->
     ~ In service_stop l /\ snd (serve w args host s) = Raise e).
Proof.
  intros Hstop. serve_cases s; added; intuition discriminate.
Qed.

(** When the API cannot be created, it is neither run nor stopped. *)
Lemma serve_api_failed args host s e :
  w_new_api w = Raise e ->
  exists l,
    trace (fst (serve w args host s)) = (trace s ++ l)%list /\
    ~ In api_stop l /\ (forall h, ~ In (api_run h) l) /\ ~ In service_run l.
Proof.
  intros Hapi. serve_cases s; added; intuition discriminate.
Qed.

(** Interrupts and exits inside the statement are swallowed. *)
Lemma serve_quiet args host s :
  quiet (w_new_service w args) = true ->
  quiet (w_new_api w) = true ->
  quiet (w_api_run w host) = true ->
  quiet (w_service_run w) = true ->
  w_api_stop w = Return tt ->
  w_service_stop w = Return tt ->
  snd (serve w args host s) = Return tt.
Proof.
  intros H1 H2 H3 H4 H5 H6. revert H1 H2 H3 H4.
  serve_cases s; simpl; intros;
    repeat match goal with a : unit |- _ => destruct a end; congruence.
Qed.


(** *** The service that is started *)

Ltac stages keystore_file password eth_rpc registry_address start_block
    confirmations host log_level state_db service_fee :=
  let l1 := fresh "l1" in let l2 := fresh "l2" in let l3 := fresh "l3" in
  let key := fresh "key" in let net := fresh "net_version" in
  let registry := fresh "registry" in let start := fresh "start" in
  let e := fresh "e" in
  let Hl1 := fresh "Hl1" in let Hl2 := fresh "Hl2" in let Hl3 := fresh "Hl3" in
  let Hs := fresh "Hstartup" in let Hf := fresh "Hchoice" in
  let Hc := fresh "Hchosen" in let Ht := fresh "Htrace" in
  let Hr := fresh "Hrun" in
  destruct (main_run keystore_file password eth_rpc registry_address
              start_block confirmations host log_level state_db service_fee)
    as [(l1 & e & Hl1 & Hs & Hr)
       |(l1 & key & net & Hl1 & Hs & l2 & Hl2 & Hf &
         [(e & Hc & Hr) | (registry & start & l3 & Hc & Hl3 & Ht & Hr)])];
  rewrite Hr; cbn [fst snd]; clear Hr.

Ltac not_here :=
  match goal with
  | H : forallb startup_event ?l = true, Hin : In _ ?l |- _ =>
      apply (startup_event_in _ _ H) in Hin; discriminate Hin
  | H : forallb registry_event ?l = true, Hin : In _ ?l |- _ =>
      apply (registry_event_in _ _ H) in Hin; discriminate Hin
  end.

(** X17.  With a registry address on the command line, the deployment data
    is not consulted, and a service that is created gets this address and
    the start block of the command line. *)
Theorem main_given_registry
    keystore_file password eth_rpc registry_address start_block confirmations
    host log_level state_db service_fee :
  registry_address <> VNone ->
  let t := trace (fst (run (script keystore_file password eth_rpc
                              registry_address start_block confirmations
                              host log_level state_db service_fee))) in
  (forall net_version contracts_version,
     ~ In (get_contracts_deployed net_version contracts_version) t) /\
  (forall args, In (new_PathfindingService args) t ->
     cli.registry_address args = registry_address /\
     sync_start_block args = start_block).
Proof.
  intros Hreg.
  stages keystore_file password eth_rpc registry_address start_block
    confirmations host log_level state_db service_fee.
  - split; [intros n v Hin | intros args Hin]; not_here.
  - rewrite choose_registry_given in Hchoice, Hchosen by done. done.
  - rewrite choose_registry_given in Hchoice, Hchosen by done.
    simpl in *. injection Hchosen as <- <-.
    injection Hchoice as Hnil.
    rewrite <- (app_nil_r l1) in Hnil at 1.
    apply app_inv_head in Hnil. subst l2.
    rewrite Htrace.
    split; [intros n v Hin | intros args Hin];
      rewrite app_nil_r in Hin; apply in_app_or in Hin as [Hin|Hin];
      try not_here;
      apply (serve_event_in _ _ _ _ Hl3) in Hin; simpl in Hin; [done|].
    by subst args.
Qed.



(** X19.  When stopping the API raises, the service is left running:
    [service.stop] is not called, and the exception of [api.stop] is what
    [main] raises, whatever was pending. *)
Theorem main_api_stop_raises
    keystore_file password eth_rpc registry_address start_block confirmations
    host log_level state_db service_fee e :
  let r := run (script keystore_file password eth_rpc registry_address
                  start_block confirmations host log_level state_db
                  service_fee) in
  In api_stop (trace (fst r)) ->
  w_api_stop w = Raise e ->
  ~ In service_stop (trace (fst r)) /\ snd r = Raise e.
Proof.
  cbv zeta.
  stages keystore_file password eth_rpc registry_address start_block
    confirmations host log_level state_db service_fee;
    intros Hin Hstop.
  - not_here.
  - rewrite Hchoice in Hin. simpl in Hin.
    apply in_app_or in Hin as [Hin|Hin]; not_here.
  - set (s2 := fst (choose_registry float_sub float_gt REGISTRY w
                      registry_address start_block net_version
                      {| trace := l1; service := false; api := false |})) in *.
    set (args := arguments_of registry start confirmations key state_db
                   service_fee) in *.
    destruct (serve_api_stop_raises args host s2 e Hstop) as (l & Hl & Himp).
    assert (l = l3) as ->.
    { rewrite Hl, Hchoice in Htrace. simpl in Htrace.
      by apply app_inv_head in Htrace. }
    rewrite Htrace in Hin |- *.
    apply in_app_or in Hin as [Hin|Hin];
      [apply in_app_or in Hin as [Hin|Hin]; not_here|].
    destruct (Himp Hin) as [Hno ->]. split; [|done].
    intros Hin'.
    apply in_app_or in Hin' as [Hin'|Hin'];
      [apply in_app_or in Hin' as [Hin'|Hin']; not_here|]. done.
Qed.

(** X20.  When the API cannot be created, it is neither run nor stopped,
    and the service is not run. *)
Theorem main_api_failed
    keystore_file password eth_rpc registry_address start_block confirmations
    host log_level state_db service_fee e :
  let t := trace (fst (run (script keystore_file password eth_rpc
                              registry_address start_block confirmations
                              host log_level state_db service_fee))) in
  w_new_api w = Raise e ->
  ~ In api_stop t /\ (forall h, ~ In (api_run h) t) /\ ~ In service_run t.
Proof.
  cbv zeta.
  stages keystore_file password eth_rpc registry_address start_block
    confirmations host log_level state_db service_fee;
    intros Hapi.
  - repeat split; [intros Hin | intros h Hin | intros Hin]; not_here.
  - rewrite Hchoice. simpl.
    repeat split; [intros Hin | intros h Hin | intros Hin];
      apply in_app_or in Hin as [Hin|Hin]; not_here.
  - set (s2 := fst (choose_registry float_sub float_gt REGISTRY w
                      registry_address start_block net_version
                      {| trace := l1; service := false; api := false |})) in *.
    set (args := arguments_of registry start confirmations key state_db
                   service_fee) in *.
    destruct (serve_api_failed args host s2 e Hapi) as (l & Hl & H1 & H2 & H3).
    assert (l = l3) as ->.
    { rewrite Hl, Hchoice in Htrace. simpl in Htrace.
      by apply app_inv_head in Htrace. }
    rewrite Htrace.
    repeat split; [intros Hin | intros h Hin | intros Hin];
      (apply in_app_or in Hin as [Hin|Hin];
       [apply in_app_or in Hin as [Hin|Hin]; not_here|]);
      [by apply H1 | by apply (H2 h) | by apply H3].
Qed.

Lemma startup_returns keystore_file password eth_rpc log_level s s' key n :
  startup w keystore_file password eth_rpc log_level s = (s', Return (key, n)) ->
  w_open w keystore_file = Return tt /\
  w_decrypt w keystore_file password = Return key /\
  w_net_version w eth_rpc = Return n.
Proof.
  unfold startup. unfold_script. destruct s as [t sv ap]; simpl.
  outcomes; intros [= ]; subst;
    repeat match goal with a : unit |- _ => destruct a end; done.
Qed.

Lemma startup_ok keystore_file password eth_rpc log_level s key n :
  w_open w keystore_file = Return tt ->
  w_decrypt w keystore_file password = Return key ->
  w_net_version w eth_rpc = Return n ->
  snd (startup w keystore_file password eth_rpc log_level s) = Return (key, n).
Proof.
  intros Ho Hd Hn. unfold startup. unfold_script.
  rewrite Ho. simpl. rewrite Hd. simpl. by rewrite Hn.
Qed.

(** X21.  A [KeyboardInterrupt] or [SystemExit] raised while the service is
    created, served or run does not leave [main]: once the start-up is
    through, [main] cleans up and returns 0, also when the service exited
    with another status. *)
Theorem main_interrupted
    keystore_file password eth_rpc registry_address start_block confirmations
    host log_level state_db service_fee key n :
  w_open w keystore_file = Return tt ->
  w_decrypt w keystore_file password = Return key ->
  w_net_version w eth_rpc = Return n ->
  registry_address <> VNone ->
  quiet (w_new_service w (arguments_of registry_address start_block
                            confirmations key state_db service_fee)) = true ->
  quiet (w_new_api w) = true ->
  quiet (w_api_run w host) = true ->
  quiet (w_service_run w) = true ->
  w_api_stop w = Return tt ->
  w_service_stop w = Return tt ->
  snd (run (script keystore_file password eth_rpc registry_address start_block
              confirmations host log_level state_db service_fee)) = Return 0%Z.
Proof.
  intros Ho Hd Hn Hreg Q1 Q2 Q3 Q4 Hs1 Hs2.
  pose proof (startup_ok keystore_file password eth_rpc log_level
                {| trace := []; service := false; api := false |} key n
                Ho Hd Hn) as Hok.
  stages keystore_file password eth_rpc registry_address start_block
    confirmations host log_level state_db service_fee.
  - rewrite Hstartup in Hok. done.
  - rewrite choose_registry_given in Hchosen by done. done.
  - rewrite Hstartup in Hok. injection Hok as -> ->.
    rewrite choose_registry_given in Hchosen |- * by done.
    simpl in *. injection Hchosen as <- <-.
    by rewrite serve_quiet.
Qed.


(** X23.  Without a registry address on the command line, a service that
    is created gets the registry address of the deployment data and, as its
    start block, the block of the deployment less 100, or 0. *)
Theorem main_default_registry
    keystore_file password eth_rpc start_block confirmations
    host log_level state_db service_fee
    n contract_data contracts info address bn args :
  w_net_version w eth_rpc = Return n ->
  w_get_contracts_deployed w n "0.3._" = Return contract_data ->
  getitem contract_data "contracts" = Ok contracts ->
  getitem contracts REGISTRY = Ok info ->
  getitem info "address" = Ok address ->
  getitem info "block_number" = Ok (VInt bn) ->
  In (new_PathfindingService args)
    (trace (fst (run (script keystore_file password eth_rpc VNone start_block
                        confirmations host log_level state_db service_fee)))) ->
  cli.registry_address args = address /\
  sync_start_block args = VInt (Z.max 0 (bn - 100)).
Proof.
  intros Hn Hw Hc Hi Ha Hb.
  stages keystore_file password eth_rpc (@VNone float) start_block
    confirmations host log_level state_db service_fee; intros Hin.
  - not_here.
  - rewrite Hchoice in Hin. simpl in Hin.
    apply in_app_or in Hin as [Hin|Hin]; not_here.
  - apply startup_returns in Hstartup as (_ & _ & Hn').
    rewrite Hn in Hn'. injection Hn' as <-.
    unfold choose_registry in Hchosen.
    rewrite (defaults_found _ _ _ _ _ _ _ _ Hw Hc Hi Ha Hb) in Hchosen.
    simpl in Hchosen. injection Hchosen as <- <-.
    rewrite Htrace in Hin.
    apply in_app_or in Hin as [Hin|Hin];
      [apply in_app_or in Hin as [Hin|Hin]; not_here|].
    apply (serve_event_in _ _ _ _ Hl3) in Hin. simpl in Hin. by subst args.
Qed.

End CliFacts.

(** ** The further properties on the scenario *)

Section MoreScenarioFacts.
Import Scenario MoreScenario cli.

Abbreviation decode := (deserializer.deserialize registry).

Lemma serialize_full_assertion_witness :
  serialize_full RefJson.dumps address_of now numbered "S" = Err AssertionError.
Proof.
  apply (serialize_full_assertion RefJson.dumps address_of now numbered "S").
  reflexivity.
Defined.

Lemma serialize_full_body_error_witness :
  serialize_full RefJson.dumps address_of now abstract "S" =
    Err NotImplementedError.
Proof.
  apply (serialize_full_body_error RefJson.dumps address_of now abstract "S"
           NotImplementedError); reflexivity.
Defined.

Lemma serialize_full_signed_object_witness :
  exists w o d,
    serialize_full RefJson.dumps address_of now request "S" = Ok w /\
    RefJson.loads w = Ok o /\
    getitem o "data" = Ok (VStr d) /\
    RefJson.loads d =
      Ok (VDict [("header", VDict [("type", VStr "PathsRequest");
                                   ("timestamp", VFloat now);
                                   ("sender", VStr (address_of "S"))]);
                 ("body", VDict [("source", VStr "0xAAAA");
                                 ("target", VStr "0xBBBB")])]).
Proof.
  apply (serialize_full_signed_object RefJson.dumps RefJson.loads address_of
           now request "S" "PathsRequest"
           (VDict [("source", VStr "0xAAAA"); ("target", VStr "0xBBBB")])).
  - exact RefJsonFacts.loads_dumps.
  - reflexivity.
  - reflexivity.
  - reflexivity.
Defined.

Lemma deserialize_ignores_signature_witness :
  deserialize RefJson.loads decode
    (VDict (dict_set outer "signature" (VStr "forged"))) =
  deserialize RefJson.loads decode (VDict outer).
Proof.
  apply (deserialize_ignores_signature RefJson.loads decode outer "forged");
    reflexivity.
Defined.

Lemma deserialize_wire_or_parsed_witness :
  deserialize RefJson.loads decode (VStr wire) =
  deserialize RefJson.loads decode (VDict outer).
Proof.
  apply (deserialize_wire_or_parsed RefJson.loads decode wire (VDict outer)).
  - apply RefJsonFacts.loads_dumps. reflexivity.
  - reflexivity.
Defined.

Lemma deserialize_not_dict_witness :
  is_ok (deserialize RefJson.loads decode (VStr (RefJson.dumps (VStr wire)))) =
    false.
Proof.
  apply (deserialize_not_dict RefJson.loads decode
           (VStr (RefJson.dumps (VStr wire))) (VStr wire)).
  - right. eexists. split; [reflexivity|].
    apply RefJsonFacts.loads_dumps. reflexivity.
  - reflexivity.
Defined.

Lemma deserialize_inner_error_witness :
  deserialize RefJson.loads decode (VDict garbled) = Err JSONDecodeError.
Proof.
  apply (deserialize_inner_error RefJson.loads decode (VDict garbled) garbled
           "not json" JSONDecodeError).
  - left. reflexivity.
  - reflexivity.
  - reflexivity.
  - vm_compute. reflexivity.
Defined.


Lemma type_setter_locks_witness :
  (forall value', type_setter retyped value' = Err AssertionError) /\
  (forall t private_key,
     serialize_full RefJson.dumps address_of t retyped private_key =
       Err AssertionError).
Proof.
  apply (type_setter_locks RefJson.dumps address_of request (VInt 5) retyped).
  - reflexivity.
  - reflexivity.
Defined.

Lemma serialize_full_after_type_setter_witness :
  type {| _type := VStr "Ping"; header := None;
          self_serialize_data := self_serialize_data request;
          self_sign_data := sign_data |} = VStr "Ping" /\
  let d :=
    RefJson.dumps
      (signed_object "Ping" now (address_of "S")
         (VDict [("source", VStr "0xAAAA"); ("target", VStr "0xBBBB")])) in
  serialize_full RefJson.dumps address_of now
    {| _type := VStr "Ping"; header := None;
       self_serialize_data := self_serialize_data request;
       self_sign_data := sign_data |} "S" =
    Ok (RefJson.dumps (envelope (self_sign_data request "S" d) d)).
Proof.
  apply (serialize_full_after_type_setter RefJson.dumps address_of request
           "Ping" _ now "S"
           (VDict [("source", VStr "0xAAAA"); ("target", VStr "0xBBBB")])).
  - reflexivity.
  - reflexivity.
Defined.

(** *** The console script *)


Lemma default_registry_not_deployed_witness :
  get_default_registry_and_start_block Z.sub Z.gtb REGISTRY
    (with_deployment (Raise ValueError)) 3 "0.3._" initial =
    ({| trace :=
          [get_contracts_deployed 3 "0.3._";
           log "error" "No deployed contracts were found at the default registry"];
        service := false; api := false |},
     Raise (SystemExit 1)).
Proof.
  apply (default_registry_not_deployed Z.sub Z.gtb REGISTRY
           (with_deployment (Raise ValueError)) 3 "0.3._" ValueError initial);
    reflexivity.
Defined.

Lemma default_registry_missing_witness :
  get_default_registry_and_start_block Z.sub Z.gtb REGISTRY
    (with_deployment (Return no_registry)) 3 "0.3._" initial =
    ({| trace := [get_contracts_deployed 3 "0.3._"];
        service := false; api := false |},
     Raise (Builtin (KeyError REGISTRY))).
Proof.
  apply (default_registry_missing Z.sub Z.gtb REGISTRY
           (with_deployment (Return no_registry)) 3 "0.3._" no_registry
           [("SecretRegistry", VDict [])] initial); reflexivity.
Defined.

Lemma main_bad_keyfile_witness :
  run (main_given wrong_password) =
    ({| trace :=
          [setup_logging "INFO";
           log "info" "Starting Raiden Pathfinding Service";
           log "info" "Using contracts version: 0.3._";
           open_file "keystore.json";
           decrypt_keyfile "secret";
           log "critical"
             "Could not decode keyfile with given password. Please try again.";
           close_file "keystore.json"];
        service := false; api := false |},
     Raise (SystemExit 1)).
Proof.
  apply (main_bad_keyfile Z.sub Z.gtb REGISTRY POLL wrong_password
           "keystore.json" "secret" "http://localhost:8545" (VStr "0xGIVEN")
           (VInt 7) 8 "localhost" "INFO" "state.db" 0 ValueError); reflexivity.
Defined.

Lemma main_no_connection_witness :
  run (main_given node_down) =
    ({| trace :=
          [setup_logging "INFO";
           log "info" "Starting Raiden Pathfinding Service";
           log "info" "Using contracts version: 0.3._";
           open_file "keystore.json";
           decrypt_keyfile "secret";
           close_file "keystore.json";
           log "info" ("Starting Web3 client for node at " ++ "http://localhost:8545");
           web3_net_version "http://localhost:8545";
           log "error"
             "Can not connect to the Ethereum client. Please check that it is running and that your settings are correct."];
        service := false; api := false |},
     Raise (SystemExit 1)).
Proof.
  apply (main_no_connection Z.sub Z.gtb REGISTRY POLL node_down
             "keystore.json" "secret" "http://localhost:8545" (VStr "0xGIVEN")
             (VInt 7) 8 "localhost" "INFO" "state.db" 0 "key" ConnectionError);
    reflexivity.
Defined.

Lemma main_given_registry_witness :
  (forall net_version contracts_version,
     ~ In (get_contracts_deployed net_version contracts_version)
         (trace (fst (run (main_given calm))))) /\
  (forall args,
     In (new_PathfindingService args) (trace (fst (run (main_given calm)))) ->
     cli.registry_address args = VStr "0xGIVEN" /\
     sync_start_block args = VInt 7).
Proof.
  apply (main_given_registry Z.sub Z.gtb REGISTRY POLL calm
           "keystore.json" "secret" "http://localhost:8545" (VStr "0xGIVEN")
           (VInt 7) 8 "localhost" "INFO" "state.db" 0).
  discriminate.
Defined.


Lemma main_api_stop_raises_witness :
  let r := run (main_given
                  (with_service (Return tt) (Return tt)
                     (Raise (Exception "OSError")))) in
  ~ In service_stop (trace (fst r)) /\ snd r = Raise (Exception "OSError").
Proof.
  apply (main_api_stop_raises Z.sub Z.gtb REGISTRY POLL
           (with_service (Return tt) (Return tt) (Raise (Exception "OSError")))
           "keystore.json" "secret" "http://localhost:8545" (VStr "0xGIVEN")
           (VInt 7) 8 "localhost" "INFO" "state.db" 0 (Exception "OSError")).
  - vm_compute. do 16 right. left. reflexivity.
  - reflexivity.
Defined.

Lemma main_api_failed_witness :
  let t := trace (fst (run (main_given
                              (with_service (Raise (Exception "OSError"))
                                 (Return tt) (Return tt))))) in
  ~ In api_stop t /\ (forall h, ~ In (api_run h) t) /\ ~ In service_run t.
Proof.
  apply (main_api_failed Z.sub Z.gtb REGISTRY POLL
           (with_service (Raise (Exception "OSError")) (Return tt) (Return tt))
           "keystore.json" "secret" "http://localhost:8545" (VStr "0xGIVEN")
           (VInt 7) 8 "localhost" "INFO" "state.db" 0 (Exception "OSError")).
  reflexivity.
Defined.

Lemma main_interrupted_witness :
  snd (run (main_given
              (with_service (Return tt) (Raise (SystemExit 3)) (Return tt)))) =
    Return 0%Z.
Proof.
  apply (main_interrupted Z.sub Z.gtb REGISTRY POLL
           (with_service (Return tt) (Raise (SystemExit 3)) (Return tt))
           "keystore.json" "secret" "http://localhost:8545" (VStr "0xGIVEN")
           (VInt 7) 8 "localhost" "INFO" "state.db" 0 "key" 3%Z);
    try reflexivity.
  discriminate.
Defined.


Lemma main_default_registry_witness :
  cli.registry_address default_args = VStr "0xREG" /\
  sync_start_block default_args = VInt (Z.max 0 (250 - 100)).
Proof.
  apply (main_default_registry Z.sub Z.gtb REGISTRY POLL calm
           "keystore.json" "secret" "http://localhost:8545" (VInt 7) 8
           "localhost" "INFO" "state.db" 0 3%Z deployment
           (VDict [(REGISTRY, VDict [("address", VStr "0xREG");
                                     ("block_number", VInt 250)])])
           (VDict [("address", VStr "0xREG"); ("block_number", VInt 250)])
           (VStr "0xREG") 250 default_args).
  - reflexivity.
  - reflexivity.
  - reflexivity.
  - reflexivity.
  - reflexivity.
  - reflexivity.
  - vm_compute. do 12 right. left. reflexivity.
Defined.

End MoreScenarioFacts.
